(** * WeekDataProcessor: week bucketing and placeholder substitution

    A shallow embedding of [src/WeekDataProcessor.py], together with the
    parts of the Python standard library it calls ([datetime], [str]
    methods), and the properties of the processor stated over that
    embedding.

    Conventions of the embedding.
    - A Python [int] is a [Z].  A Python [str] is a [string]; each character
      stands for one code point below 256, and the string primitives
      ([strip], [replace], [in], the [\d] class of [strptime]) are modelled on
      that range.
    - [datetime] follows CPython's [_pydatetime] and [_strptime]: ordinals of
      the proleptic Gregorian calendar, [isocalendar], and the regular
      expression that [strptime] builds for ["%d.%m.%Y"].
    - The module-level configuration imported from [src.ConfigManager]
      ([days], [activitys]), [str.upper] and the iteration order of a [set]
      are parameters of the development ([Config]).  The message templates
      of [messages] are not modelled: a logger call is recorded with its
      arguments.
    - The logger and the Word document are collaborators: the calls the
      processor makes on them are recorded, in order, in the state.
    - A method that raises returns [Raise e] together with the state reached
      so far; nothing is rolled back. *)

From stdpp Require Import base option list gmap strings pretty.
From Stdlib Require Import ZArith Lia Ascii String Sorted.


Local Open Scope Z_scope.

(** ** The proleptic Gregorian calendar of [datetime] *)

Module Calendar.

Record date := mkdate { year : Z; month : Z; day : Z }.

Definition MINYEAR : Z := 1.
Definition MAXYEAR : Z := 9999.
(** [date.max.toordinal()] *)
Definition MAXORDINAL : Z := 3652059.

Definition DAYS_IN_MONTH : list Z :=
  [-1; 31; 28; 31; 30; 31; 30; 31; 31; 30; 31; 30; 31].
Definition DAYS_BEFORE_MONTH : list Z :=
  [-1; 0; 31; 59; 90; 120; 151; 181; 212; 243; 273; 304; 334].

(** [table[i]] for an index known to be in range. *)
Definition index (table : list Z) (i : Z) : Z := nth (Z.to_nat i) table 0.

Definition is_leap (y : Z) : bool :=
  (y mod 4 =? 0) && (negb (y mod 100 =? 0) || (y mod 400 =? 0)).

Definition days_before_year (y : Z) : Z :=
  let y := y - 1 in y * 365 + y / 4 - y / 100 + y / 400.

Definition days_in_month (y m : Z) : Z :=
  if (m =? 2) && is_leap y then 29 else index DAYS_IN_MONTH m.

Definition days_before_month (y m : Z) : Z :=
  index DAYS_BEFORE_MONTH m + (if (2 <? m) && is_leap y then 1 else 0).

Definition ymd2ord (y m d : Z) : Z :=
  days_before_year y + days_before_month y m + d.

Definition DI400Y : Z := Eval cbv in days_before_year 401.
Definition DI100Y : Z := Eval cbv in days_before_year 101.
Definition DI4Y : Z := Eval cbv in days_before_year 5.

Definition ord2ymd (n : Z) : date :=
  let n := n - 1 in
  let n400 := n / DI400Y in
  let n := n mod DI400Y in
  let y := n400 * 400 + 1 in
  let n100 := n / DI100Y in
  let n := n mod DI100Y in
  let n4 := n / DI4Y in
  let n := n mod DI4Y in
  let n1 := n / 365 in
  let n := n mod 365 in
  let y := y + n100 * 100 + n4 * 4 + n1 in
  if (n1 =? 4) || (n100 =? 4) then mkdate (y - 1) 12 31
  else
    let leapyear := (n1 =? 3) && (negb (n4 =? 24) || (n100 =? 3)) in
    let m := Z.shiftr (n + 50) 5 in
    let preceding :=
      index DAYS_BEFORE_MONTH m + (if (2 <? m) && leapyear then 1 else 0) in
    if n <? preceding then
      let m := m - 1 in
      let preceding :=
        preceding
        - (index DAYS_IN_MONTH m + (if (m =? 2) && leapyear then 1 else 0)) in
      mkdate y m (n - preceding + 1)
    else mkdate y m (n - preceding + 1).

(** What the [date] constructor accepts ([_check_date_fields]). *)
Definition valid_date (d : date) : bool :=
  (MINYEAR <=? year d) && (year d <=? MAXYEAR)
  && (1 <=? month d) && (month d <=? 12)
  && (1 <=? day d) && (day d <=? days_in_month (year d) (month d)).

Definition toordinal (d : date) : Z := ymd2ord (year d) (month d) (day d).
Definition fromordinal (n : Z) : date := ord2ymd n.

(** Monday is 0. *)
Definition weekday (d : date) : Z := (toordinal d + 6) mod 7.

Definition isoweek1monday (y : Z) : Z :=
  let firstday := ymd2ord y 1 1 in
  let firstweekday := (firstday + 6) mod 7 in
  let week1monday := firstday - firstweekday in
  if 3 <? firstweekday then week1monday + 7 else week1monday.

(** [date.isocalendar()]: (ISO year, ISO week, ISO weekday). *)
Definition isocalendar (d : date) : Z * Z * Z :=
  let y := year d in
  let week1monday := isoweek1monday y in
  let today := toordinal d in
  let week := (today - week1monday) / 7 in
  let wday := (today - week1monday) mod 7 in
  if week <? 0 then
    let y := y - 1 in
    let week1monday := isoweek1monday y in
    (y, (today - week1monday) / 7 + 1, (today - week1monday) mod 7 + 1)
  else if (52 <=? week) && (isoweek1monday (y + 1) <=? today) then
    (y + 1, 1, wday + 1)
  else (y, week + 1, wday + 1).

Definition iso_week (d : date) : Z := snd (fst (isocalendar d)).

(** The ISO 8601 rule in its own words: weeks start on Monday, a week
    belongs to the year that holds its Thursday, and week 1 of a year is
    the week holding the year's first Thursday.  So the week number of a
    day counts the Thursdays of that year up to the Thursday of the day's
    week. *)
Definition thursday_of_week (n : Z) : Z := n - (n + 6) mod 7 + 3.

Definition iso8601_week (d : date) : Z :=
  let thursday := thursday_of_week (toordinal d) in
  let jan1 := ymd2ord (year (fromordinal thursday)) 1 1 in
  (thursday - jan1) / 7 + 1.

(** Helpers for reasoning about [ord2ymd]: the month and day of the
    [k]-th day (from 0) of a year, and the month tables by leap flag. *)

Definition leap_day (leap : bool) : Z := if leap then 1 else 0.

Definition month_day (k : Z) (leapyear : bool) : Z * Z :=
  let m := Z.shiftr (k + 50) 5 in
  let preceding :=
    index DAYS_BEFORE_MONTH m + (if (2 <? m) && leapyear then 1 else 0) in
  if k <? preceding then
    (m - 1,
     k - (preceding
          - (index DAYS_IN_MONTH (m - 1)
             + (if (m - 1 =? 2) && leapyear then 1 else 0))) + 1)
  else (m, k - preceding + 1).

Definition dim_l (leap : bool) (m : Z) : Z :=
  if (m =? 2) && leap then 29 else index DAYS_IN_MONTH m.
Definition dbm_l (leap : bool) (m : Z) : Z :=
  index DAYS_BEFORE_MONTH m + (if (2 <? m) && leap then 1 else 0).


Definition month_day_inv_ok (leap : bool) (m : Z) : bool :=
  forallb (fun d => negb (d <=? dim_l leap m)
                    || (let '(m', d') := month_day (dbm_l leap m + d - 1) leap in
                        (m' =? m) && (d' =? d)))
          (seqZ 1 31).

(** Month and day in range for the year, whatever the year. *)
Definition valid_month_day (d : date) : Prop :=
  1 <= month d <= 12 /\ 1 <= day d <= days_in_month (year d) (month d).

End Calendar.

(** ** Python [str] primitives *)

Module PyStr.

Definition LF : ascii := ascii_of_nat 10.
Definition nl : string := String LF "".

Definition code (c : ascii) : N := N_of_ascii c.

(** [c.isspace()] on code points below 256: TAB..CR, FS..US, space, NEL and
    the no-break space. *)
Definition is_space (c : ascii) : bool :=
  let n := code c in
  ((9 <=? n) && (n <=? 13) || (28 <=? n) && (n <=? 32)
   || (n =? 133) || (n =? 160))%N.

(** The regular-expression class [\d] on code points below 256. *)
Definition is_digit (c : ascii) : bool :=
  let n := code c in ((48 <=? n) && (n <=? 57))%N.

Definition digit_value (c : ascii) : Z := Z.of_N (code c) - 48.
Definition digit_char (n : Z) : ascii := ascii_of_N (Z.to_N (48 + n)).

Fixpoint lstrip (s : string) : string :=
  match s with
  | String c s' => if is_space c then lstrip s' else s
  | EmptyString => EmptyString
  end.

Fixpoint rstrip (s : string) : string :=
  match s with
  | String c s' =>
      match rstrip s' with
      | EmptyString => if is_space c then EmptyString else String c EmptyString
      | r => String c r
      end
  | EmptyString => EmptyString
  end.

(** [s.strip()] *)
Definition strip (s : string) : string := rstrip (lstrip s).

(** [s.startswith(p)] *)
Fixpoint startswith (p s : string) : bool :=
  match p, s with
  | EmptyString, _ => true
  | String a p', String b s' => Ascii.eqb a b && startswith p' s'
  | String _ _, EmptyString => false
  end.

(** [sub in s] *)
Fixpoint contains (sub s : string) : bool :=
  startswith sub s
  || match s with
     | String _ s' => contains sub s'
     | EmptyString => false
     end.

(** The scan of [s.replace(old, new)] for a non-empty [old]: occurrences are
    taken left to right and do not overlap.  [skip] counts the characters of
    the occurrence just replaced that are still to be passed over. *)
Fixpoint replace_from (old new : string) (skip : nat) (s : string) : string :=
  match s with
  | EmptyString => EmptyString
  | String c s' =>
      match skip with
      | S k => replace_from old new k s'
      | O =>
          if startswith old s
          then new +:+ replace_from old new (String.length old - 1) s'
          else String c (replace_from old new 0 s')
      end
  end.

(** For the empty [old], Python puts [new] before every character and at the
    end. *)
Fixpoint intersperse (new s : string) : string :=
  match s with
  | EmptyString => new
  | String c s' => new +:+ String c (intersperse new s')
  end.

(** [s.replace(old, new)] *)
Definition replace (old new s : string) : string :=
  match old with
  | EmptyString => intersperse new s
  | _ => replace_from old new 0 s
  end.

(** [s.split(sep)] for a one-character separator, and [sep.join(parts)]. *)
Fixpoint split (sep : ascii) (s : string) : list string :=
  match s with
  | EmptyString => [EmptyString]
  | String c s' =>
      if Ascii.eqb c sep then EmptyString :: split sep s'
      else match split sep s' with
           | l :: ls => String c l :: ls
           | [] => [String c EmptyString]
           end
  end.

Fixpoint join (sep : string) (parts : list string) : string :=
  match parts with
  | [] => EmptyString
  | [p] => p
  | p :: ps => p +:+ sep +:+ join sep ps
  end.

(** [int(s)] on the text of a [strptime] group: decimal digits, after blanks
    that [int] ignores. *)
Definition int (s : string) : Z :=
  fold_left (fun acc c => if is_digit c then acc * 10 + digit_value c else acc)
            (list_ascii_of_string s) 0.

(** [str(n)] for an integer. *)
Definition str (n : Z) : string := pretty n.

(** The lines of a text after the first, each behind a newline and [pre]. *)
Definition continuation (pre : string) (ls : list string) : string :=
  foldr (fun l acc => nl +:+ pre +:+ l +:+ acc) EmptyString ls.

End PyStr.

(** ** [datetime.strptime] and [strftime] for the format ["%d.%m.%Y"] *)

Module DateFormat.
Import Calendar PyStr.

(** Why [strptime] raises [ValueError]. *)
Inductive ParseError :=
| NoMatch
| UnconvertedData (rest : string)
| YearOutOfRange (y : Z)
| DayOutOfRange.

(** A backtracking matcher lists its ways to match a prefix of the input, in
    the order the regular-expression engine tries them, each with the text
    matched and the input left over. *)
Definition Matcher := string -> list (string * string).

Definition chr (p : ascii -> bool) : Matcher := fun s =>
  match s with
  | String c r => if p c then [(String c EmptyString, r)] else []
  | EmptyString => []
  end.

Definition seq (a b : Matcher) : Matcher := fun s =>
  '(x, r) ← a s; '(y, r') ← b r; [(x +:+ y, r')].

Definition alt (ms : list Matcher) : Matcher := fun s => m ← ms; m s.

Definition lit (c : ascii) : Matcher := chr (Ascii.eqb c).
Definition range (lo hi : ascii) : Matcher :=
  chr (fun c => (code lo <=? code c) && (code c <=? code hi))%N.
Definition digit : Matcher := chr is_digit.

(** [(?P<d>3[0-1]|[1-2]\d|0[1-9]|[1-9]| [1-9])] *)
Definition re_d : Matcher :=
  alt [ seq (lit "3") (range "0" "1");
        seq (range "1" "2") digit;
        seq (lit "0") (range "1" "9");
        range "1" "9";
        seq (lit " ") (range "1" "9") ].

(** [(?P<m>1[0-2]|0[1-9]|[1-9])] *)
Definition re_m : Matcher :=
  alt [ seq (lit "1") (range "0" "2");
        seq (lit "0") (range "1" "9");
        range "1" "9" ].

(** [(?P<Y>\d\d\d\d)] *)
Definition re_Y : Matcher := seq digit (seq digit (seq digit digit)).

(** The compiled format: [re_d \. re_m \. re_Y], with its three groups. *)
Definition format_regex (s : string) : list ((string * string * string) * string) :=
  '(d, r1) ← re_d s; '(_, r2) ← lit "." r1;
  '(m, r3) ← re_m r2; '(_, r4) ← lit "." r3;
  '(y, r5) ← re_Y r4; [((d, m, y), r5)].

(** [datetime.strptime(s, "%d.%m.%Y")], time of day left out (it is
    midnight): the first match of the format at the start of [s], which must
    use up [s], then the date constructor's range checks. *)
Definition strptime (s : string) : ParseError + date :=
  match format_regex s with
  | [] => inl NoMatch
  | ((d, m, y), rest) :: _ =>
      match rest with
      | String _ _ => inl (UnconvertedData rest)
      | EmptyString =>
          let dt := mkdate (int y) (int m) (int d) in
          if negb ((MINYEAR <=? year dt) && (year dt <=? MAXYEAR))
          then inl (YearOutOfRange (year dt))
          else if negb ((1 <=? day dt)
                        && (day dt <=? days_in_month (year dt) (month dt)))
          then inl DayOutOfRange
          else inr dt
      end
  end.

Definition pad2 (n : Z) : string :=
  String (digit_char (n / 10)) (String (digit_char (n mod 10)) EmptyString).

Definition pad4 (n : Z) : string :=
  String (digit_char (n / 1000))
    (String (digit_char (n / 100 mod 10))
       (String (digit_char (n / 10 mod 10))
          (String (digit_char (n mod 10)) EmptyString))).

(** [d.strftime("%d.%m.%Y")], with the year written in four digits, as the
    library documents [%Y]. *)
Definition strftime (d : date) : string :=
  pad2 (day d) +:+ "." +:+ pad2 (month d) +:+ "." +:+ pad4 (year d).

(** [timedelta(days=n)] exists for [|n| <= 999999999]. *)
Definition MAX_DELTA_DAYS : Z := 999999999.

(** [d + timedelta(days=n)]: [OverflowError] when the delta or the result is
    out of range; [None] stands for that error. *)
Definition add_days (d : date) (n : Z) : option date :=
  if MAX_DELTA_DAYS <? Z.abs n then None
  else
    let o := toordinal d + n in
    if (0 <? o) && (o <=? MAXORDINAL) then Some (fromordinal o) else None.

End DateFormat.

(** ** The processor *)

Import Calendar PyStr DateFormat.

(** *** Configuration, input and collaborators *)

(** What the module takes from [src.ConfigManager] and from the Python
    runtime.  [set_iter] is the order in which a [set] of day names is
    iterated: some arrangement of its elements. *)
Class Config := {
  days : list string;
  activitys : gmap string string;
  upper : string -> string;
  set_iter : list string -> list string;
  set_iter_perm : forall l, set_iter l ≡ₚ l
}.

(** A row of the input table, with the required columns as strings.
    [Taetigkeitsbeschreibung] is the column 'Tätigkeitsbeschreibung';
    [Beschreibung] is [None] when the table has no such column. *)
Record Row := {
  Datum : string;
  Tag : string;
  Taetigkeitsbeschreibung : string;
  Beschreibung : option string
}.

(** A day entry [{TAG: {"Art": ..., "Inhalt": ...}}] of a week bucket. *)
Record DayEntry := {
  tag : string;
  Art : string;
  Inhalt : string
}.

(** [weeks_data]: a [dict] from relative week to its bucket, in insertion
    order, no key twice. *)
Definition WeeksData := list (Z * list DayEntry).

(** A cell object of the document, by identity. *)
Definition Cell := nat.

(** Calls on the logger. *)
Inductive LogEvent :=
| LogError (date_str : string) (e : ParseError)
| LogWarningMissingDay (day : string) (week : Z).

(** Calls on the document. *)
Inductive DocCall :=
| ReplaceGeneral (cell : Cell) (placeholders : list (string * string))
| ReplacePlaceholders (cell : Cell) (placeholder value : string).

(** The fields of [self] that never change: the settings mapping, the tables
    of the document (each a list of rows, each a list of cells, in the
    document's iteration order) and the input table. *)
Record Processor := {
  settings : gmap string string;
  tables : list (list (list Cell));
  data : list Row
}.

(** What a run changes: [self.weeks_data], the calls received by the logger
    and by the document (oldest first), and, as instrumentation, the weeks
    for which [process_week_placeholders] was entered (oldest first). *)
Record State := {
  weeks_data : WeeksData;
  log : list LogEvent;
  doc_calls : list DocCall;
  visited : list Z
}.

Definition initial_state : State :=
  {| weeks_data := []; log := []; doc_calls := []; visited := [] |}.

Inductive Exception :=
| IndexError
| KeyError (key : string)
| ValueError (e : ParseError)
| OverflowError.

Inductive Result (A : Type) :=
| Ok (a : A)
| Raise (e : Exception).
Arguments Ok {A} a.
Arguments Raise {A} e.

(** *** Computations: state passing, with exceptions that keep the state *)

Definition M (A : Type) : Type := State -> Result A * State.

Definition ret {A} (a : A) : M A := fun st => (Ok a, st).

Definition bind {A B} (c : M A) (k : A -> M B) : M B := fun st =>
  match c st with
  | (Ok a, st') => k a st'
  | (Raise e, st') => (Raise e, st')
  end.

Definition raise {A} (e : Exception) : M A := fun st => (Raise e, st).

#[export] Instance M_ret : MRet M := @ret.
#[export] Instance M_bind : MBind M := fun A B k c => bind c k.

Fixpoint for_each {A} (xs : list A) (body : A -> M unit) : M unit :=
  match xs with
  | [] => ret tt
  | x :: xs' => bind (body x) (fun _ => for_each xs' body)
  end.

(** A loop that rebinds a local variable. *)
Fixpoint for_fold {A B} (xs : list A) (acc : B) (body : B -> A -> M B) : M B :=
  match xs with
  | [] => ret acc
  | x :: xs' => bind (body acc x) (fun acc' => for_fold xs' acc' body)
  end.

Definition logger_error (date_str : string) (e : ParseError) : M unit :=
  fun st => (Ok tt, {| weeks_data := weeks_data st;
                       log := log st ++ [LogError date_str e];
                       doc_calls := doc_calls st;
                       visited := visited st |}).

Definition logger_warning (day : string) (week : Z) : M unit :=
  fun st => (Ok tt, {| weeks_data := weeks_data st;
                       log := log st ++ [LogWarningMissingDay day week];
                       doc_calls := doc_calls st;
                       visited := visited st |}).

Definition document_call (c : DocCall) : M unit :=
  fun st => (Ok tt, {| weeks_data := weeks_data st;
                       log := log st;
                       doc_calls := doc_calls st ++ [c];
                       visited := visited st |}).

Definition enter_week (week : Z) : M unit :=
  fun st => (Ok tt, {| weeks_data := weeks_data st;
                       log := log st;
                       doc_calls := doc_calls st;
                       visited := visited st ++ [week] |}).

Definition get_weeks_data : M WeeksData := fun st => (Ok (weeks_data st), st).

Definition set_weeks_data (wd : WeeksData) : M unit :=
  fun st => (Ok tt, {| weeks_data := wd;
                       log := log st;
                       doc_calls := doc_calls st;
                       visited := visited st |}).

(** *** [weeks_data] as a dict *)

Fixpoint dict_get (week : Z) (wd : WeeksData) : option (list DayEntry) :=
  match wd with
  | [] => None
  | (k, entries) :: wd' => if k =? week then Some entries else dict_get week wd'
  end.

(** [weeks_data.setdefault(week, []).append(entry)] *)
Fixpoint setdefault_append (week : Z) (entry : DayEntry) (wd : WeeksData)
  : WeeksData :=
  match wd with
  | [] => [(week, [entry])]
  | (k, entries) :: wd' =>
      if k =? week then (k, entries ++ [entry]) :: wd'
      else (k, entries) :: setdefault_append week entry wd'
  end.

(** References into [weeks_data].  A bucket list is reachable only through
    the dict, and a day's inner dict only through its entry, so a bucket is
    referred to by its key and an inner dict by bucket and position.
    [FreshDict] is the new [{}] a failed lookup defaults to. *)
Definition BucketRef := Z.

Inductive DataRef :=
| FreshDict
| EntryData (bucket : BucketRef) (i : nat).

Definition bucket_entries (b : BucketRef) (wd : WeeksData) : list DayEntry :=
  default [] (dict_get b wd).

Definition set_Art (v : string) (e : DayEntry) : DayEntry :=
  {| tag := tag e; Art := v; Inhalt := Inhalt e |}.

(** Storing [v] under ["Art"] in entry [i] of bucket [b]. *)
Fixpoint store_Art (b : BucketRef) (i : nat) (v : string) (wd : WeeksData)
  : WeeksData :=
  match wd with
  | [] => []
  | (k, entries) :: wd' =>
      if k =? b then (k, alter (set_Art v) i entries) :: wd'
      else (k, entries) :: store_Art b i v wd'
  end.

(** [data.get(field, "")] for the two fields, and [data["Art"] = v]. *)
Definition data_get (field : DayEntry -> string) (r : DataRef) : M string :=
  fun st =>
    match r with
    | FreshDict => (Ok EmptyString, st)
    | EntryData b i =>
        (Ok (default EmptyString (field <$> bucket_entries b (weeks_data st) !! i)), st)
    end.

Definition data_set_Art (r : DataRef) (v : string) : M unit :=
  match r with
  | FreshDict => ret tt
  | EntryData b i =>
      bind get_weeks_data (fun wd => set_weeks_data (store_Art b i v wd))
  end.

(** *** The methods of [WeekDataProcessor] *)

Section Methods.
Context `{Config}.

Definition get_week (date_str : string) : M Z :=
  match strptime date_str with
  | inr d => ret (iso_week d)
  | inl e => logger_error date_str e;; ret (-1)
  end.

Definition get_activity_type (activity : string) : string :=
  default (default "TAETIGKEIT_UNBEKANNT" (activitys !! "NA"))
          (activitys !! activity).

(** [self.data['Datum'].iloc[0]] *)
Definition iloc0 (self : Processor) : M string :=
  match data self with
  | [] => raise IndexError
  | row :: _ => ret (Datum row)
  end.

Definition row_entry (row : Row) : DayEntry :=
  {| tag := upper (Tag row);
     Art := get_activity_type (upper (Taetigkeitsbeschreibung row));
     Inhalt := default EmptyString (Beschreibung row) |}.

Definition empty_entry (day : string) : DayEntry :=
  {| tag := day; Art := EmptyString; Inhalt := EmptyString |}.

(** [set(days) - existing_days], in iteration order. *)
Definition missing_days (entries : list DayEntry) : list string :=
  set_iter (remove_dups (filter (fun d => d ∉ (tag <$> entries)) days)).

Definition initialize_weeks_data (self : Processor) : M WeeksData :=
  first ← iloc0 self;
  start_week ← get_week first;
  weeks_data ← for_fold (data self) [] (fun weeks_data row =>
    current_week ← get_week (Datum row);
    let relative_week := current_week - start_week + 1 in
    mret (setdefault_append relative_week (row_entry row) weeks_data));
  for_fold weeks_data [] (fun filled '(week, entries) =>
    entries ← for_fold (missing_days entries) entries (fun entries day =>
      let entries := entries ++ [empty_entry day] in
      logger_warning day week;;
      mret entries);
    mret (filled ++ [(week, entries)])).

(** [__init__] *)
Definition WeekDataProcessor_init (self : Processor) : M unit :=
  weeks_data ← initialize_weeks_data self;
  set_weeks_data weeks_data.

Definition MARKER : string := "Berufsschule".
Definition BULLET : string := "-   ".

Definition format_content (content : string) : string :=
  let content := strip (replace MARKER "" content) in
  match content with
  | EmptyString => EmptyString
  | _ => BULLET +:+ replace nl (nl +:+ BULLET)
                      (replace "- " "" (replace "," "" content))
  end.

(** [format_content] as the specification words it: commas are removed,
    the dash prefixes that lead a line are removed, and each line is
    written behind the bullet. *)
Fixpoint strip_leading_dashes (line : string) : string :=
  match line with
  | String "-" (String " " rest) => strip_leading_dashes rest
  | _ => line
  end.

Definition format_content_spec (content : string) : string :=
  let content := strip (replace MARKER "" content) in
  match content with
  | EmptyString => EmptyString
  | _ => join nl ((fun line => BULLET +:+ strip_leading_dashes line)
                  <$> split LF (replace "," "" content))
  end.

Definition calculate_week_range (start_date : string) (week_offset : Z)
  : Result (string * string) :=
  match strptime start_date with
  | inl e => Raise (ValueError e)
  | inr d =>
      match add_days d (7 * week_offset) with
      | None => Raise OverflowError
      | Some start =>
          match add_days start 4 with
          | None => Raise OverflowError
          | Some end_ => Ok (strftime start, strftime end_)
          end
      end
  end.

Definition lift {A} (r : Result A) : M A := fun st => (r, st).

Definition placeholder (day field : string) (week : Z) : string :=
  "{" +:+ day +:+ field +:+ str week +:+ "}".

(** [self.settings[key]] *)
Definition settings_getitem (self : Processor) (key : string) : M string :=
  match settings self !! key with
  | Some v => ret v
  | None => raise (KeyError key)
  end.

Definition replace_placeholders_for_day (self : Processor) (cell : Cell)
    (day : string) (week : Z) (data : DataRef) : M unit :=
  let placeholder_content := placeholder day "_INHALT" week in
  let placeholder_hours := placeholder day "_STUNDEN" week in
  let placeholder_type := placeholder day "_ART" week in
  inhalt ← data_get Inhalt data;
  let content := format_content inhalt in
  art ← (if contains MARKER inhalt then mret MARKER else data_get Art data);
  data_set_Art data art;;
  document_call (ReplacePlaceholders cell placeholder_content content);;
  hours ← settings_getitem self "default_hours";
  document_call (ReplacePlaceholders cell placeholder_hours hours);;
  (* [data.get('Art', '')] reads back the value just stored *)
  document_call (ReplacePlaceholders cell placeholder_type art).

(** [next((entry.get(day, {}) for entry in entries if day in entry), {})] *)
Definition day_data (entries : BucketRef) (day : string) : M DataRef :=
  wd ← get_weeks_data;
  mret (match list_find (fun e => tag e = day) (bucket_entries entries wd) with
        | Some (i, _) => EntryData entries i
        | None => FreshDict
        end).

(** [self.data['Datum'][0]]: the row labelled 0, the first one of a table
    read from a file. *)
Definition Datum0 (self : Processor) : M string :=
  match data self with
  | [] => raise (KeyError "0")
  | row :: _ => ret (Datum row)
  end.

Definition process_week_placeholders (self : Processor) (week : Z)
    (entries : BucketRef) : M unit :=
  enter_week week;;
  first ← Datum0 self;
  '(start_date, end_date) ← lift (calculate_week_range first (week - 1));
  let general_placeholders :=
    [ ("{NAME}", default "N/A" (settings self !! "name"));
      ("{ABJ}", default "N/A" (settings self !! "year"));
      ("{DATUM_START" +:+ str week +:+ "}", start_date);
      ("{DATUM_ENDE" +:+ str week +:+ "}", end_date) ] in
  for_each (tables self) (fun table =>
    for_each table (fun row =>
      for_each row (fun cell =>
        document_call (ReplaceGeneral cell general_placeholders);;
        for_each days (fun day =>
          data ← day_data entries day;
          replace_placeholders_for_day self cell day week data)))).

(** The loop runs over the items of the dict in insertion order; the
    bucket of an item is handed on by reference, that is by its key. *)
Definition process_all_weeks (self : Processor) : M unit :=
  wd ← get_weeks_data;
  for_each wd (fun '(week, _) => process_week_placeholders self week week).

(** *** Definitions used to state the properties *)

(** The state after the logger received the calls [lg]. *)
Definition add_log (lg : list LogEvent) (st : State) : State :=
  {| weeks_data := weeks_data st;
     log := log st ++ lg;
     doc_calls := doc_calls st;
     visited := visited st |}.

(** What [get_week] returns. *)
Definition week_of (date_str : string) : Z :=
  match strptime date_str with
  | inr d => iso_week d
  | inl _ => -1
  end.

(** What [get_week] logs. *)
Definition week_log (date_str : string) : list LogEvent :=
  match strptime date_str with
  | inr _ => []
  | inl e => [LogError date_str e]
  end.

(** The first loop of [initialize_weeks_data], without the logging. *)
Definition relative_week (start_week : Z) (row : Row) : Z :=
  week_of (Datum row) - start_week + 1.

Definition aggregate (start_week : Z) (rows : list Row) (acc : WeeksData)
  : WeeksData :=
  foldl (fun wd row =>
           setdefault_append (relative_week start_week row) (row_entry row) wd)
        acc rows.

(** The second loop, without the logging. *)
Definition fill_bucket (entries : list DayEntry) : list DayEntry :=
  entries ++ (empty_entry <$> missing_days entries).

Definition fill (wd : WeeksData) : WeeksData :=
  (fun '(week, entries) => (week, fill_bucket entries)) <$> wd.

(** The warnings of the second loop. *)
Definition fill_log (wd : WeeksData) : list LogEvent :=
  wd ≫= fun '(week, entries) =>
    (fun day => LogWarningMissingDay day week) <$> missing_days entries.

(** The whole log of an initialization. *)
Definition init_log (rows : list Row) (first : Row) : list LogEvent :=
  week_log (Datum first)
  ++ (rows ≫= fun row => week_log (Datum row))
  ++ fill_log (aggregate (week_of (Datum first)) rows []).

(** The state after [self.weeks_data = wd]. *)
Definition set_wd (wd : WeeksData) (st : State) : State :=
  {| weeks_data := wd; log := log st; doc_calls := doc_calls st;
     visited := visited st |}.

(** The rows of relative week [w], in table order. *)
Definition rows_of_week (sw w : Z) (rows : list Row) : list Row :=
  filter (fun row => relative_week sw row = w) rows.

(** The weeks of a list, each at its first appearance. *)
Definition first_occurrences (acc ks : list Z) : list Z :=
  foldl (fun acc k => if decide (k ∈ acc) then acc else acc ++ [k]) acc ks.

(** How many entries of a bucket are for [day]. *)
Definition count_tag (day : string) (entries : list DayEntry) : nat :=
  List.length (filter (fun e => tag e = day) entries).

(** [start_week]: what [get_week] returns on the first row's date. *)
Definition start_week_of (rows : list Row) : Z :=
  match rows with
  | first :: _ => week_of (Datum first)
  | [] => 0
  end.

(** What [initialize_weeks_data] returns on a non-empty table. *)
Definition initialized (rows : list Row) : WeeksData :=
  fill (aggregate (start_week_of rows) rows []).

(** [R] relates every state to the state a computation leaves, whether
    it returns or raises. *)
Definition preserves {A} (R : relation State) (c : M A) : Prop :=
  forall st, R st (snd (c st)).

(** An entry keeps its day and content; its type stays, or becomes the
    marker when the content holds the marker. *)
Definition entry_frame (e e' : DayEntry) : Prop :=
  tag e' = tag e /\ Inhalt e' = Inhalt e
  /\ (Art e' = Art e \/ (contains MARKER (Inhalt e) = true /\ Art e' = MARKER)).

(** A bucket keeps its key and its entries, each up to [entry_frame]; the
    dict keeps its buckets and their order. *)
Definition bucket_frame (b b' : Z * list DayEntry) : Prop :=
  b'.1 = b.1 /\ Forall2 entry_frame b.2 b'.2.

Definition weeks_frame (wd wd' : WeeksData) : Prop := Forall2 bucket_frame wd wd'.

Definition state_frame (st st' : State) : Prop :=
  weeks_frame (weeks_data st) (weeks_data st').

Definition same_visited (st st' : State) : Prop := visited st' = visited st.

(** What [data.get(field, "")] reads in a state, and the state after
    [data["Art"] = v]. *)
Definition data_read (field : DayEntry -> string) (r : DataRef) (st : State)
  : string :=
  match r with
  | FreshDict => EmptyString
  | EntryData b i =>
      default EmptyString (field <$> bucket_entries b (weeks_data st) !! i)
  end.

Definition data_write (r : DataRef) (v : string) (st : State) : State :=
  match r with
  | FreshDict => st
  | EntryData b i => set_wd (store_Art b i v (weeks_data st)) st
  end.

(** The state after the document received the calls [cs]. *)
Definition add_calls (cs : list DocCall) (st : State) : State :=
  {| weeks_data := weeks_data st; log := log st;
     doc_calls := doc_calls st ++ cs; visited := visited st |}.

(** The type written for a day: the marker when the content holds it. *)
Definition substituted_type (r : DataRef) (st : State) : string :=
  if contains MARKER (data_read Inhalt r st) then MARKER else data_read Art r st.

(** C1, as stated: one entry per configured day in every bucket. *)
Definition one_entry_per_day (wd : WeeksData) : Prop :=
  forall week entries day,
    (week, entries) ∈ wd -> day ∈ days -> count_tag day entries = 1%nat.

End Methods.

(** ** A configuration and tables to run the processor on *)

Definition upper_char (c : ascii) : ascii :=
  let n := N_of_ascii c in
  if ((97 <=? n) && (n <=? 122))%N then ascii_of_N (n - 32) else c.

(** [str.upper] on ASCII text. *)
Fixpoint ascii_upper (s : string) : string :=
  match s with
  | EmptyString => EmptyString
  | String c s' => String (upper_char c) (ascii_upper s')
  end.

Definition example_config : Config :=
  {| days := ["MONTAG"; "DIENSTAG"; "MITTWOCH"; "DONNERSTAG"; "FREITAG"];
     activitys := {[ "BETRIEB" := "Betrieb"; "NA" := "Unbekannt" ]};
     upper := ascii_upper;
     set_iter := id;
     set_iter_perm := fun l => reflexivity l |}.

Definition example_row (datum tag content : string) : Row :=
  {| Datum := datum; Tag := tag; Taetigkeitsbeschreibung := "Betrieb";
     Beschreibung := Some content |}.

Definition example_processor (hours : option string) (rows : list Row) : Processor :=
  {| settings := from_option (fun h => {[ "default_hours" := h ]}) ∅ hours;
     tables := [[[0%nat]]];
     data := rows |}.

(** Two rows for the same Monday. *)
Definition same_day_rows : list Row :=
  [example_row "01.04.2024" "Montag" "Ablage"; example_row "01.04.2024" "Montag" "Inventur"].

(** A later week before an earlier one. *)
Definition unsorted_rows : list Row :=
  [example_row "08.04.2024" "Montag" "Ablage"; example_row "01.04.2024" "Montag" "Inventur"].

Definition sorted_rows : list Row :=
  [example_row "01.04.2024" "Montag" "Ablage"; example_row "08.04.2024" "Montag" "Inventur"].

Definition school_rows : list Row :=
  [example_row "01.04.2024" "Montag" "Berufsschule Mathe, Deutsch"].

Definition bad_date_rows : list Row :=
  [example_row "01.04.2024" "Montag" "Ablage"; example_row "2024-04-02" "Dienstag" "Inventur"].

(** The state of a fresh processor after construction, and after a run. *)
Definition constructed (self : Processor) : State :=
  (@WeekDataProcessor_init example_config self initial_state).2.

Definition processed (self : Processor) : Result unit * State :=
  @process_all_weeks example_config self (constructed self).

(** * Properties *)

(** ** The calendar *)

Module CalendarFacts.
Import Calendar.

(** Linear arithmetic with division and remainder by constants. *)
Ltac euclid := Z.to_euclidean_division_equations; lia.

Lemma is_leap_spec y :
  is_leap y = true <-> y mod 4 = 0 /\ (y mod 100 <> 0 \/ y mod 400 = 0).
Proof.
  unfold is_leap.
  rewrite andb_true_iff, orb_true_iff, negb_true_iff, !Z.eqb_eq, Z.eqb_neq.
  reflexivity.
Qed.

Lemma days_before_year_succ y :
  days_before_year (y + 1) = days_before_year y + 365 + leap_day (is_leap y).
Proof.
  unfold leap_day. destruct (is_leap y) eqn:E.
  - apply is_leap_spec in E. unfold days_before_year. euclid.
  - assert (~ (y mod 4 = 0 /\ (y mod 100 <> 0 \/ y mod 400 = 0))) as E'.
    { rewrite <- is_leap_spec. congruence. }
    unfold days_before_year. euclid.
Qed.

Lemma days_before_year_mono y y' :
  y <= y' -> days_before_year y <= days_before_year y'.
Proof. unfold days_before_year. intros. euclid. Qed.

Lemma year_unique y y' n :
  days_before_year y < n <= days_before_year (y + 1) ->
  days_before_year y' < n <= days_before_year (y' + 1) ->
  y = y'.
Proof.
  intros Hy Hy'.
  destruct (Z.lt_trichotomy y y') as [L | [E | L]]; [| exact E |].
  - pose proof (days_before_year_mono (y + 1) y'). lia.
  - pose proof (days_before_year_mono (y' + 1) y). lia.
Qed.

Lemma month_day_tail y k leap :
  (if k <? dbm_l leap (Z.shiftr (k + 50) 5) then
     mkdate y (Z.shiftr (k + 50) 5 - 1)
       (k - (dbm_l leap (Z.shiftr (k + 50) 5)
             - (index DAYS_IN_MONTH (Z.shiftr (k + 50) 5 - 1)
                + (if (Z.shiftr (k + 50) 5 - 1 =? 2) && leap then 1 else 0))) + 1)
   else mkdate y (Z.shiftr (k + 50) 5) (k - dbm_l leap (Z.shiftr (k + 50) 5) + 1))
  = mkdate y (fst (month_day k leap)) (snd (month_day k leap)).
Proof.
  unfold month_day, dbm_l. cbv zeta.
  destruct (k <? _); reflexivity.
Qed.

(** [ord2ymd] finds the year whose days hold [n], and then the month and
    day by [month_day]; the last day of a 4-, 100- or 400-year cycle, which
    the code returns early, fits the same description. *)
Lemma ord2ymd_in_year n :
  exists y, days_before_year y < n <= days_before_year (y + 1)
    /\ ord2ymd n = mkdate y (fst (month_day (n - days_before_year y - 1) (is_leap y)))
                            (snd (month_day (n - days_before_year y - 1) (is_leap y))).
Proof.
  unfold ord2ymd, DI400Y, DI100Y, DI4Y. cbv zeta.
  set (a := (n - 1) / 146097).
  set (r1 := (n - 1) mod 146097).
  set (b := r1 / 36524).
  set (r2 := r1 mod 36524).
  set (c := r2 / 1461).
  set (r3 := r2 mod 1461).
  set (d := r3 / 365).
  set (r4 := r3 mod 365).
  assert (n - 1 = 146097 * a + r1 /\ 0 <= r1 < 146097) as [Ha Hr1]
    by (subst a r1; euclid).
  assert (r1 = 36524 * b + r2 /\ 0 <= r2 < 36524 /\ 0 <= b <= 4) as (Hb & Hr2 & Bb)
    by (subst b r2; euclid).
  assert (r2 = 1461 * c + r3 /\ 0 <= r3 < 1461 /\ 0 <= c <= 24) as (Hc & Hr3 & Bc)
    by (subst c r3; euclid).
  assert (r3 = 365 * d + r4 /\ 0 <= r4 < 365 /\ 0 <= d <= 4) as (Hd & Hr4 & Bd)
    by (subst d r4; euclid).
  clearbody a r1 b r2 c r3 d r4.
  destruct ((d =? 4) || (b =? 4)) eqn:Special.
  - (* the last day of a leap year *)
    exists (a * 400 + 1 + b * 100 + c * 4 + d - 1).
    apply orb_true_iff in Special. rewrite !Z.eqb_eq in Special.
    assert (is_leap (a * 400 + 1 + b * 100 + c * 4 + d - 1) = true) as L.
    { apply is_leap_spec. euclid. }
    rewrite days_before_year_succ, L.
    assert (n - days_before_year (a * 400 + 1 + b * 100 + c * 4 + d - 1) - 1 = 365)
      as -> by (unfold days_before_year; euclid).
    split; [unfold days_before_year, leap_day; euclid | reflexivity].
  - apply orb_false_iff in Special. rewrite !Z.eqb_neq in Special.
    exists (a * 400 + 1 + b * 100 + c * 4 + d).
    assert (is_leap (a * 400 + 1 + b * 100 + c * 4 + d)
            = (d =? 3) && (negb (c =? 24) || (b =? 3))) as L.
    { apply eq_true_iff_eq.
      rewrite is_leap_spec, andb_true_iff, orb_true_iff, negb_true_iff,
        !Z.eqb_eq, Z.eqb_neq.
      euclid. }
    assert (n - days_before_year (a * 400 + 1 + b * 100 + c * 4 + d) - 1 = r4)
      as -> by (unfold days_before_year; euclid).
    rewrite days_before_year_succ. rewrite L.
    split.
    + unfold leap_day. destruct (_ && _);
        unfold days_before_year; euclid.
    + apply (month_day_tail _ r4).
Qed.

Lemma forallb_seqZ (P : Z -> bool) lo len k :
  forallb P (seqZ lo len) = true -> lo <= k < lo + len -> P k = true.
Proof.
  intros Hall Hk. rewrite forallb_forall in Hall. apply Hall.
  apply list_elem_of_In, elem_of_seqZ. lia.
Qed.


Lemma month_day_inv leap m d :
  1 <= m <= 12 -> 1 <= d <= dim_l leap m ->
  month_day (dbm_l leap m + d - 1) leap = (m, d).
Proof.
  intros Hm Hd.
  assert (d <= 31) as Hd31.
  { assert ((dim_l leap m <=? 31) = true) as Hle; [| apply Z.leb_le in Hle; lia].
    apply (forallb_seqZ (fun m => dim_l leap m <=? 31) 1 12); [| lia].
    destruct leap; vm_compute; reflexivity. }
  assert (month_day_inv_ok leap m = true) as Hok.
  { apply (forallb_seqZ _ 1 12); [| lia]. destruct leap; vm_compute; reflexivity. }
  unfold month_day_inv_ok in Hok.
  apply (forallb_seqZ _ 1 31 d) in Hok; [| lia]. cbv beta in Hok.
  destruct (month_day _ leap) as [m' d'].
  apply orb_true_iff in Hok as [Hok | Hok].
  - apply negb_true_iff, Z.leb_gt in Hok. lia.
  - apply andb_true_iff in Hok as [->%Z.eqb_eq ->%Z.eqb_eq]. reflexivity.
Qed.

Lemma days_in_year_bound leap m d :
  1 <= m <= 12 -> 1 <= d <= dim_l leap m ->
  1 <= dbm_l leap m + d <= 365 + leap_day leap.
Proof.
  intros Hm Hd.
  assert (((0 <=? dbm_l leap m)
           && (dbm_l leap m + dim_l leap m <=? 365 + leap_day leap)) = true) as Hok.
  { apply (forallb_seqZ
             (fun m => (0 <=? dbm_l leap m)
                       && (dbm_l leap m + dim_l leap m <=? 365 + leap_day leap)) 1 12);
      [| lia].
    destruct leap; vm_compute; reflexivity. }
  apply andb_true_iff in Hok as [?%Z.leb_le ?%Z.leb_le]. lia.
Qed.

Lemma valid_date_month_day d : valid_date d = true -> valid_month_day d.
Proof.
  unfold valid_date, valid_month_day.
  rewrite !andb_true_iff, !Z.leb_le. lia.
Qed.

Lemma toordinal_in_year d :
  valid_month_day d ->
  days_before_year (year d) < toordinal d <= days_before_year (year d + 1).
Proof.
  intros [Hm Hd]. unfold toordinal, ymd2ord.
  pose proof (days_in_year_bound (is_leap (year d)) (month d) (day d) Hm Hd) as B.
  unfold dbm_l in B. unfold days_before_month.
  rewrite days_before_year_succ. lia.
Qed.



Lemma year_fromordinal y n :
  days_before_year y < n <= days_before_year (y + 1) ->
  year (fromordinal n) = y.
Proof.
  intros Hy. unfold fromordinal.
  destruct (ord2ymd_in_year n) as (y' & Hy' & ->). simpl.
  eapply year_unique; eassumption.
Qed.

Lemma fromordinal_toordinal d :
  valid_month_day d -> fromordinal (toordinal d) = d.
Proof.
  intros Hv. pose proof (toordinal_in_year d Hv) as Hy.
  unfold fromordinal.
  destruct (ord2ymd_in_year (toordinal d)) as (y' & Hy' & ->).
  assert (y' = year d) as -> by (eapply year_unique; eassumption).
  assert (toordinal d - days_before_year (year d) - 1
          = dbm_l (is_leap (year d)) (month d) + day d - 1) as ->.
  { unfold toordinal, ymd2ord, days_before_month, dbm_l. lia. }
  destruct Hv as [Hm Hd].
  rewrite month_day_inv by assumption.
  destruct d; reflexivity.
Qed.

Lemma ymd2ord_jan1 y : ymd2ord y 1 1 = days_before_year y + 1.
Proof.
  unfold ymd2ord, days_before_month.
  change (index DAYS_BEFORE_MONTH 1) with 0.
  change ((2 <? 1) && is_leap y) with false. cbv iota. lia.
Qed.

Lemma year_length y :
  365 <= days_before_year (y + 1) - days_before_year y <= 366.
Proof. rewrite days_before_year_succ. unfold leap_day. destruct (is_leap y); lia. Qed.

(** [isocalendar] computes the ISO 8601 week number. *)
Lemma iso_week_is_iso8601 d :
  valid_month_day d -> iso_week d = iso8601_week d.
Proof.
  intros Hv. pose proof (toordinal_in_year d Hv) as Hn.
  unfold iso_week, isocalendar, iso8601_week, thursday_of_week. cbv zeta.
  generalize dependent (toordinal d). generalize (year d). clear d Hv.
  intros y n Hn.
  pose proof (year_length y) as L0.
  pose proof (year_length (y - 1)) as Lm.
  pose proof (year_length (y + 1)) as L1.
  replace (y - 1 + 1) with y in Lm by lia.
  unfold isoweek1monday. cbv zeta. rewrite !ymd2ord_jan1.
  assert (year (fromordinal (n - (n + 6) mod 7 + 3)) = y - 1
          /\ n - (n + 6) mod 7 + 3 <= days_before_year y
          \/ year (fromordinal (n - (n + 6) mod 7 + 3)) = y
             /\ days_before_year y < n - (n + 6) mod 7 + 3
                <= days_before_year (y + 1)
          \/ year (fromordinal (n - (n + 6) mod 7 + 3)) = y + 1
             /\ days_before_year (y + 1) < n - (n + 6) mod 7 + 3) as Hyear.
  { destruct (Z_le_gt_dec (n - (n + 6) mod 7 + 3) (days_before_year y));
      [| destruct (Z_le_gt_dec (n - (n + 6) mod 7 + 3) (days_before_year (y + 1)))].
    - left. split; [| assumption]. apply year_fromordinal.
      replace (y - 1 + 1) with y by lia. euclid.
    - right; left. split; [| lia]. apply year_fromordinal. lia.
    - right; right. split; [| lia]. apply year_fromordinal. euclid. }
  destruct Hyear as [[-> Ht] | [[-> Ht] | [-> Ht]]];
    repeat match goal with
           | |- context [3 <? ?t] => destruct (Z.ltb_spec 3 t)
           end;
    repeat match goal with
           | |- context [if ?b then _ else _] =>
               let E := fresh "E" in
               destruct b eqn:E;
               rewrite ?andb_true_iff, ?andb_false_iff, ?Z.ltb_lt, ?Z.ltb_ge,
                 ?Z.leb_le, ?Z.leb_gt in E
           end;
    cbn [fst snd]; euclid.
Qed.

End CalendarFacts.

(** ** Parsing and formatting dates *)

Module DateFormatFacts.
Import Calendar PyStr DateFormat CalendarFacts.

Lemma elem_of_chr p x r s :
  (x, r) ∈ chr p s <-> exists c, s = String c r /\ p c = true /\ x = String c EmptyString.
Proof.
  unfold chr. destruct s as [| c s'].
  - rewrite elem_of_nil. split; [tauto | intros (c & ? & _); discriminate].
  - destruct (p c) eqn:E.
    + rewrite list_elem_of_singleton. split.
      * intros [= -> ->]. eauto.
      * intros (c' & [= <- <-] & _ & ->). reflexivity.
    + rewrite elem_of_nil. split; [tauto |].
      intros (c' & [= <- <-] & ? & _). congruence.
Qed.

Lemma elem_of_seq a b x r s :
  (x, r) ∈ seq a b s <->
  exists x1 r1 x2, (x1, r1) ∈ a s /\ (x2, r) ∈ b r1 /\ x = x1 +:+ x2.
Proof.
  unfold seq. rewrite list_elem_of_bind. split.
  - intros ([x1 r1] & Hin & Ha). apply list_elem_of_bind in Hin as ([x2 r2] & Hin & Hb).
    apply list_elem_of_singleton in Hin as [= -> ->]. eauto 10.
  - intros (x1 & r1 & x2 & Ha & Hb & ->). exists (x1, r1). split; [| assumption].
    apply list_elem_of_bind. exists (x2, r). split; [| assumption].
    apply list_elem_of_singleton. reflexivity.
Qed.

Lemma elem_of_alt ms x r s :
  (x, r) ∈ alt ms s <-> exists m, m ∈ ms /\ (x, r) ∈ m s.
Proof.
  unfold alt. rewrite list_elem_of_bind. split; intros (m & ? & ?); eauto.
Qed.

Lemma int_two c1 c2 :
  is_digit c1 = true -> is_digit c2 = true ->
  int (String c1 (String c2 EmptyString)) = digit_value c1 * 10 + digit_value c2.
Proof. intros H1 H2. unfold int. simpl. rewrite H1, H2. lia. Qed.

Lemma int_one c :
  is_digit c = true -> int (String c EmptyString) = digit_value c.
Proof. intros H1. unfold int. simpl. rewrite H1. lia. Qed.

Lemma range_spec lo hi x r s :
  (x, r) ∈ range lo hi s <->
  exists c, s = String c r /\ (code lo <= code c <= code hi)%N /\ x = String c EmptyString.
Proof.
  unfold range. rewrite elem_of_chr. split; intros (c & ? & Hc & ?); exists c;
    (split; [assumption |]); (split; [| assumption]).
  - apply andb_true_iff in Hc. rewrite !N.leb_le in Hc. assumption.
  - apply andb_true_iff. rewrite !N.leb_le. assumption.
Qed.

Lemma lit_spec c0 x r s :
  (x, r) ∈ lit c0 s <-> s = String c0 r /\ x = String c0 EmptyString.
Proof.
  unfold lit. rewrite elem_of_chr. split.
  - intros (c & -> & Hc & ->). apply Ascii.eqb_eq in Hc as ->. auto.
  - intros [-> ->]. exists c0. rewrite Ascii.eqb_refl. auto.
Qed.

Lemma re_m_month x r s : (x, r) ∈ re_m s -> 1 <= int x <= 12.
Proof.
  unfold re_m. rewrite elem_of_alt. intros (m & Hm & Hx).
  repeat (apply elem_of_cons in Hm as [-> | Hm]); [| | | by apply elem_of_nil in Hm].
  - apply elem_of_seq in Hx as (x1 & r1 & x2 & H1 & H2 & ->).
    apply lit_spec in H1 as [-> ->]. apply range_spec in H2 as (c & -> & Hc & ->).
    change (code "0") with 48%N in Hc. change (code "2") with 50%N in Hc.
    cbv [String.append]. rewrite int_two.
    + unfold digit_value. change (code "1") with 49%N. lia.
    + reflexivity.
    + unfold is_digit. apply andb_true_iff. rewrite !N.leb_le. lia.
  - apply elem_of_seq in Hx as (x1 & r1 & x2 & H1 & H2 & ->).
    apply lit_spec in H1 as [-> ->]. apply range_spec in H2 as (c & -> & Hc & ->).
    change (code "1") with 49%N in Hc. change (code "9") with 57%N in Hc.
    cbv [String.append]. rewrite int_two.
    + unfold digit_value. change (code "0") with 48%N. lia.
    + reflexivity.
    + unfold is_digit. apply andb_true_iff. rewrite !N.leb_le. lia.
  - apply range_spec in Hx as (c & -> & Hc & ->).
    change (code "1") with 49%N in Hc. change (code "9") with 57%N in Hc.
    rewrite int_one.
    + unfold digit_value. lia.
    + unfold is_digit. apply andb_true_iff. rewrite !N.leb_le. lia.
Qed.

Lemma format_regex_month d m y r s :
  ((d, m, y), r) ∈ format_regex s -> 1 <= int m <= 12.
Proof.
  unfold format_regex. intros Hin.
  apply list_elem_of_bind in Hin as ([d' r1] & Hin & _).
  apply list_elem_of_bind in Hin as ([? r2] & Hin & _).
  apply list_elem_of_bind in Hin as ([m' r3] & Hin & Hm).
  apply list_elem_of_bind in Hin as ([? r4] & Hin & _).
  apply list_elem_of_bind in Hin as ([y' r5] & Hin & _).
  apply list_elem_of_singleton in Hin as [= -> -> -> ->].
  eapply re_m_month; eassumption.
Qed.

(** A date that [strptime] returns is one the [date] constructor accepts. *)
Lemma strptime_valid s d : strptime s = inr d -> valid_date d = true.
Proof.
  unfold strptime. destruct (format_regex s) as [| [[[dd m] y] rest] l] eqn:E;
    [discriminate |].
  destruct rest; [| discriminate].
  pose proof (format_regex_month dd m y EmptyString s) as Hm.
  rewrite E in Hm. specialize (Hm (list_elem_of_here _ _)).
  cbn [year month day].
  destruct (negb _) eqn:Hy; [discriminate |].
  destruct (negb (_ && (_ <=? days_in_month _ _))) eqn:Hd; [discriminate |].
  intros [= <-]. unfold valid_date. cbn [year month day].
  apply negb_false_iff in Hy, Hd. apply andb_true_iff in Hy as [Hy1 Hy2].
  apply andb_true_iff in Hd as [Hd1 Hd2].
  rewrite !andb_true_iff, !Z.leb_le. rewrite Z.leb_le in Hy1, Hy2, Hd1, Hd2. lia.
Qed.


Lemma append_cons c s t : String c s +:+ t = String c (s +:+ t).
Proof. reflexivity. Qed.

Lemma append_nil t : EmptyString +:+ t = t.
Proof. reflexivity. Qed.

Lemma append_nil_r s : s +:+ EmptyString = s.
Proof. induction s as [| c s IH]; [reflexivity |]. rewrite append_cons, IH. reflexivity. Qed.












End DateFormatFacts.

(** ** Strings *)

Module PyStrFacts.
Import PyStr DateFormatFacts.

Lemma split_nonempty sep s : split sep s <> [].
Proof.
  destruct s as [| c s]; simpl; [discriminate |].
  destruct (Ascii.eqb c sep); [discriminate |].
  destruct (split sep s); discriminate.
Qed.

Lemma append_assoc (a b c : string) : (a +:+ b) +:+ c = a +:+ (b +:+ c).
Proof.
  induction a as [| x a IH]; [reflexivity |].
  rewrite !append_cons, IH. reflexivity.
Qed.

Lemma startswith_nl c s : startswith nl (String c s) = Ascii.eqb c LF.
Proof.
  unfold nl. cbn [startswith]. rewrite andb_true_r. apply Ascii.eqb_sym.
Qed.

Lemma replace_nl_lines pre s :
  replace nl (nl +:+ pre) s
  = match split LF s with
    | l :: ls => l +:+ continuation pre ls
    | [] => EmptyString
    end.
Proof.
  unfold replace. change nl with (String LF EmptyString) at 1.
  induction s as [| c s IH]; [reflexivity |].
  cbn [replace_from split]. rewrite startswith_nl.
  change (String.length nl - 1)%nat with 0%nat.
  destruct (Ascii.eqb c LF).
  - rewrite IH. cbn [continuation foldr]. rewrite append_nil.
    destruct (split LF s) as [| l ls] eqn:E; [by apply split_nonempty in E |].
    rewrite !append_assoc. reflexivity.
  - rewrite IH.
    destruct (split LF s) as [| l ls] eqn:E; [by apply split_nonempty in E |].
    reflexivity.
Qed.

Lemma join_bulleted pre l ls :
  join nl ((fun x => pre +:+ x) <$> (l :: ls)) = pre +:+ l +:+ continuation pre ls.
Proof.
  revert l. induction ls as [| l' ls IH]; intros l.
  - simpl. rewrite append_nil_r. reflexivity.
  - change (join nl ((fun x => pre +:+ x) <$> l :: l' :: ls))
      with ((pre +:+ l) +:+ nl +:+ join nl ((fun x => pre +:+ x) <$> (l' :: ls))).
    rewrite IH. cbn [continuation foldr]. rewrite !append_assoc. reflexivity.
Qed.

(** Replacing every newline by a newline and [pre], behind a first [pre],
    puts [pre] before every line. *)
Lemma bullet_lines pre s :
  pre +:+ replace nl (nl +:+ pre) s
  = join nl ((fun l => pre +:+ l) <$> split LF s).
Proof.
  rewrite replace_nl_lines.
  destruct (split LF s) as [| l ls] eqn:E; [by apply split_nonempty in E |].
  rewrite join_bulleted. reflexivity.
Qed.

End PyStrFacts.

Import CalendarFacts DateFormatFacts PyStrFacts.

(** ** Initialization and substitution *)

Section MethodFacts.
Context `{Config}.

Ltac munfold := unfold mbind, M_bind, mret, M_ret, bind, ret, raise in *.

Lemma mbind_ok {A B} (c : M A) (k : A -> M B) st a st' :
  c st = (Ok a, st') -> (c ≫= k) st = k a st'.
Proof. intros E. munfold. rewrite E. reflexivity. Qed.

Lemma mbind_raise {A B} (c : M A) (k : A -> M B) st e st' :
  c st = (Raise e, st') -> (c ≫= k) st = (Raise e, st').
Proof. intros E. munfold. rewrite E. reflexivity. Qed.

Lemma bind_ok {A B} (c : M A) (k : A -> M B) st a st' :
  c st = (Ok a, st') -> bind c k st = k a st'.
Proof. apply mbind_ok. Qed.

Lemma bind_raise {A B} (c : M A) (k : A -> M B) st e st' :
  c st = (Raise e, st') -> bind c k st = (Raise e, st').
Proof. apply mbind_raise. Qed.

Lemma mret_run {A} (a : A) st : (mret a : M A) st = (Ok a, st).
Proof. reflexivity. Qed.

Lemma add_log_nil st : add_log [] st = st.
Proof. destruct st. unfold add_log. simpl. rewrite app_nil_r. reflexivity. Qed.

Lemma add_log_app a b st : add_log b (add_log a st) = add_log (a ++ b) st.
Proof. unfold add_log. simpl. rewrite app_assoc. reflexivity. Qed.

Lemma logger_warning_run day week st :
  logger_warning day week st = (Ok tt, add_log [LogWarningMissingDay day week] st).
Proof. reflexivity. Qed.

Lemma get_week_run s st :
  get_week s st = (Ok (week_of s), add_log (week_log s) st).
Proof.
  unfold get_week, week_of, week_log. destruct (strptime s).
  - reflexivity.
  - munfold. rewrite add_log_nil. reflexivity.
Qed.

Lemma aggregate_run sw rows acc st :
  for_fold rows acc (fun weeks_data row =>
    current_week ← get_week (Datum row);
    let relative_week := current_week - sw + 1 in
    mret (setdefault_append relative_week (row_entry row) weeks_data)) st
  = (Ok (aggregate sw rows acc),
     add_log (rows ≫= fun row => week_log (Datum row)) st).
Proof.
  revert acc st. induction rows as [| row rows IH]; intros acc st.
  - simpl. rewrite add_log_nil. reflexivity.
  - cbn [for_fold].
    erewrite bind_ok; [| erewrite mbind_ok by apply get_week_run; apply mret_run].
    rewrite IH, add_log_app. reflexivity.
Qed.

Lemma fill_bucket_run week days0 entries st :
  for_fold days0 entries (fun entries day =>
    let entries := entries ++ [empty_entry day] in
    logger_warning day week;;
    mret entries) st
  = (Ok (entries ++ (empty_entry <$> days0)),
     add_log ((fun day => LogWarningMissingDay day week) <$> days0) st).
Proof.
  revert entries st. induction days0 as [| day days0 IH]; intros entries st.
  - simpl. rewrite add_log_nil, app_nil_r. reflexivity.
  - cbn [for_fold].
    erewrite bind_ok; [| erewrite mbind_ok by apply logger_warning_run; apply mret_run].
    rewrite IH, add_log_app, <- app_assoc. reflexivity.
Qed.

Lemma fill_run wd filled st :
  for_fold wd filled (fun filled '(week, entries) =>
    entries ← for_fold (missing_days entries) entries (fun entries day =>
      let entries := entries ++ [empty_entry day] in
      logger_warning day week;;
      mret entries);
    mret (filled ++ [(week, entries)])) st
  = (Ok (filled ++ fill wd), add_log (fill_log wd) st).
Proof.
  revert filled st. induction wd as [| [week entries] wd IH]; intros filled st.
  - simpl. rewrite add_log_nil, app_nil_r. reflexivity.
  - cbn [for_fold].
    erewrite bind_ok; [| erewrite mbind_ok by apply fill_bucket_run; apply mret_run].
    rewrite IH, add_log_app, <- app_assoc. reflexivity.
Qed.

Lemma initialize_weeks_data_run self first rest st :
  data self = first :: rest ->
  initialize_weeks_data self st
  = (Ok (fill (aggregate (week_of (Datum first)) (data self) [])),
     add_log (init_log (data self) first) st).
Proof.
  intros Hdata. unfold initialize_weeks_data.
  erewrite mbind_ok by (unfold iloc0; rewrite Hdata; reflexivity).
  erewrite mbind_ok by apply get_week_run.
  erewrite mbind_ok by apply aggregate_run.
  rewrite fill_run, !add_log_app. reflexivity.
Qed.

Lemma initialize_weeks_data_empty self st :
  data self = [] -> initialize_weeks_data self st = (Raise IndexError, st).
Proof.
  intros Hdata. unfold initialize_weeks_data, iloc0. rewrite Hdata. reflexivity.
Qed.

Lemma init_run self first rest st :
  data self = first :: rest ->
  WeekDataProcessor_init self st
  = (Ok tt,
     set_wd (fill (aggregate (week_of (Datum first)) (data self) []))
            (add_log (init_log (data self) first) st)).
Proof.
  intros Hdata. unfold WeekDataProcessor_init.
  erewrite mbind_ok by (eapply initialize_weeks_data_run; eassumption).
  reflexivity.
Qed.

Lemma init_empty self st :
  data self = [] -> WeekDataProcessor_init self st = (Raise IndexError, st).
Proof.
  intros Hdata. unfold WeekDataProcessor_init.
  erewrite mbind_raise by (apply initialize_weeks_data_empty; assumption).
  reflexivity.
Qed.

(** *** The dict built by the first loop *)

Lemma dict_get_setdefault_append w k e wd :
  dict_get w (setdefault_append k e wd)
  = if k =? w then Some (default [] (dict_get k wd) ++ [e]) else dict_get w wd.
Proof.
  induction wd as [| [k' es] wd IH]; cbn [setdefault_append dict_get].
  - destruct (Z.eqb_spec k w); reflexivity.
  - destruct (Z.eqb_spec k' k) as [-> | Hne]; cbn [dict_get].
    + destruct (Z.eqb_spec k w); reflexivity.
    + rewrite IH.
      destruct (Z.eqb_spec k' w) as [-> | Hne']; [| reflexivity].
      destruct (Z.eqb_spec k w); [congruence | reflexivity].
Qed.

Lemma dict_get_aggregate sw w rows acc :
  dict_get w (aggregate sw rows acc)
  = match dict_get w acc, row_entry <$> rows_of_week sw w rows with
    | None, [] => None
    | o, new => Some (default [] o ++ new)
    end.
Proof.
  unfold aggregate, rows_of_week. revert acc.
  induction rows as [| row rows IH]; intros acc; cbn [foldl].
  - simpl. destruct (dict_get w acc); [rewrite app_nil_r |]; reflexivity.
  - rewrite IH, dict_get_setdefault_append, filter_cons.
    destruct (Z.eqb_spec (relative_week sw row) w) as [-> | Hne].
    + rewrite decide_True by reflexivity. rewrite fmap_cons.
      destruct (dict_get _ acc); simpl; rewrite <- ?app_assoc; reflexivity.
    + rewrite decide_False by assumption. reflexivity.
Qed.

Lemma keys_setdefault_append k e wd :
  (setdefault_append k e wd).*1
  = if decide (k ∈ wd.*1) then wd.*1 else wd.*1 ++ [k].
Proof.
  induction wd as [| [k' es] wd IH]; cbn [setdefault_append fmap list_fmap fst].
  - rewrite decide_False by apply not_elem_of_nil. reflexivity.
  - destruct (Z.eqb_spec k' k) as [-> | Hne].
    + rewrite decide_True by apply list_elem_of_here. reflexivity.
    + cbn [fmap list_fmap fst]. fold (@fmap list _ _ _ (@fst Z (list DayEntry))).
      rewrite IH. destruct (decide (k ∈ wd.*1)) as [Hin | Hnin].
      * rewrite decide_True by (apply list_elem_of_further; assumption). reflexivity.
      * rewrite decide_False; [reflexivity |].
        rewrite elem_of_cons. intros [-> | ?]; congruence.
Qed.

Lemma keys_aggregate sw rows acc :
  (aggregate sw rows acc).*1
  = first_occurrences (acc.*1) (relative_week sw <$> rows).
Proof.
  unfold aggregate, first_occurrences. revert acc.
  induction rows as [| row rows IH]; intros acc; [reflexivity |].
  cbn [foldl fmap list_fmap]. rewrite IH, keys_setdefault_append. reflexivity.
Qed.

Lemma first_occurrences_NoDup acc ks :
  NoDup acc -> NoDup (first_occurrences acc ks).
Proof.
  unfold first_occurrences. revert acc.
  induction ks as [| k ks IH]; intros acc Hacc; [assumption |].
  cbn [foldl]. apply IH. destruct (decide (k ∈ acc)); [assumption |].
  apply NoDup_app. repeat split; [assumption | | apply NoDup_singleton].
  intros x Hx ->%list_elem_of_singleton. contradiction.
Qed.

Lemma dict_get_elem_of w es (wd : WeeksData) :
  NoDup (wd.*1) -> (w, es) ∈ wd -> dict_get w wd = Some es.
Proof.
  induction wd as [| [k es'] wd IH]; intros Hnd Hin.
  - by apply elem_of_nil in Hin.
  - apply NoDup_cons in Hnd as [Hk Hnd]. cbn [dict_get].
    apply elem_of_cons in Hin as [[= <- <-] | Hin].
    + rewrite Z.eqb_refl. reflexivity.
    + destruct (Z.eqb_spec k w) as [-> | Hne]; [| auto].
      exfalso. apply Hk. apply list_elem_of_fmap. exists (w, es). auto.
Qed.

Lemma elem_of_dict_get w es (wd : WeeksData) :
  dict_get w wd = Some es -> (w, es) ∈ wd.
Proof.
  induction wd as [| [k es'] wd IH]; cbn [dict_get]; [discriminate |].
  destruct (Z.eqb_spec k w) as [-> | Hne].
  - intros [= ->]. apply list_elem_of_here.
  - intros Hget. apply list_elem_of_further. auto.
Qed.

Lemma keys_fill wd : (fill wd).*1 = wd.*1.
Proof.
  unfold fill. induction wd as [| [k es] wd IH]; [reflexivity |].
  cbn [fmap list_fmap fst]. f_equal. exact IH.
Qed.

Lemma dict_get_fill w wd : dict_get w (fill wd) = fill_bucket <$> dict_get w wd.
Proof.
  unfold fill. induction wd as [| [k es] wd IH]; [reflexivity |].
  cbn [fmap list_fmap dict_get]. destruct (k =? w); [reflexivity | exact IH].
Qed.

(** *** Counting the entries of a day *)

Lemma count_tag_app day es1 es2 :
  count_tag day (es1 ++ es2) = (count_tag day es1 + count_tag day es2)%nat.
Proof. unfold count_tag. rewrite filter_app, length_app. reflexivity. Qed.

Lemma count_tag_zero day es : day ∉ tag <$> es -> count_tag day es = 0%nat.
Proof.
  unfold count_tag. induction es as [| e es IH]; intros Hnin; [reflexivity |].
  rewrite fmap_cons, not_elem_of_cons in Hnin. destruct Hnin as [Hne Hnin].
  rewrite filter_cons_False by congruence. auto.
Qed.

Lemma count_tag_pos day es : day ∈ tag <$> es -> (1 <= count_tag day es)%nat.
Proof.
  unfold count_tag. induction es as [| e es IH]; intros Hin.
  - by apply elem_of_nil in Hin.
  - rewrite fmap_cons, elem_of_cons in Hin. rewrite filter_cons.
    destruct (decide (tag e = day)); [simpl; lia |].
    destruct Hin as [-> | Hin]; [congruence | auto].
Qed.

Lemma count_tag_empty_entries day l :
  count_tag day (empty_entry <$> l) = List.length (filter (fun x => x = day) l).
Proof.
  unfold count_tag. induction l as [| x l IH]; [reflexivity |].
  rewrite fmap_cons, !filter_cons. cbn [empty_entry tag].
  destruct (decide (x = day)); simpl; rewrite IH; reflexivity.
Qed.

Lemma count_NoDup (day : string) l :
  NoDup l ->
  List.length (filter (fun x => x = day) l) = if decide (day ∈ l) then 1%nat else 0%nat.
Proof.
  induction 1 as [| x l Hx Hnd IH]; [reflexivity |].
  rewrite filter_cons. destruct (decide (x = day)) as [-> | Hne].
  - rewrite decide_True by apply list_elem_of_here.
    simpl. rewrite IH, decide_False by assumption. reflexivity.
  - rewrite IH. destruct (decide (day ∈ l)) as [Hin | Hnin].
    + rewrite decide_True by (apply list_elem_of_further; assumption). reflexivity.
    + rewrite decide_False; [reflexivity |].
      rewrite elem_of_cons. intros [-> | ?]; congruence.
Qed.

Lemma count_missing_days day es :
  List.length (filter (fun x => x = day) (missing_days es))
  = if decide (day ∈ days ∧ day ∉ tag <$> es) then 1%nat else 0%nat.
Proof.
  unfold missing_days. rewrite set_iter_perm.
  rewrite count_NoDup by apply NoDup_remove_dups.
  destruct (decide (day ∈ remove_dups _)) as [Hin | Hnin];
    rewrite elem_of_remove_dups, list_elem_of_filter in *.
  - rewrite decide_True by tauto. reflexivity.
  - rewrite decide_False by tauto. reflexivity.
Qed.

(** A completed bucket has every configured day: once if it was missing, and
    as often as before otherwise. *)
Lemma count_tag_fill_bucket day es :
  day ∈ days -> count_tag day (fill_bucket es) = Nat.max 1 (count_tag day es).
Proof.
  intros Hday. unfold fill_bucket.
  rewrite count_tag_app, count_tag_empty_entries, count_missing_days.
  destruct (decide (day ∈ tag <$> es)) as [Hin | Hnin].
  - rewrite decide_False by tauto. pose proof (count_tag_pos day es Hin). lia.
  - rewrite decide_True by tauto. rewrite (count_tag_zero day es Hnin). reflexivity.
Qed.

Lemma count_tag_rows day (P : Row -> Prop) `{!forall r, Decision (P r)} rows :
  count_tag day (row_entry <$> filter P rows)
  = List.length (filter (fun row => P row ∧ upper (Tag row) = day) rows).
Proof.
  unfold count_tag. induction rows as [| row rows IH]; [reflexivity |].
  rewrite (filter_cons P), (filter_cons (fun row => P row ∧ _)).
  destruct (decide (P row)) as [HP | HP].
  - rewrite fmap_cons, filter_cons. cbn [row_entry tag].
    destruct (decide (upper (Tag row) = day)) as [E | E].
    + rewrite decide_True by tauto. simpl. rewrite IH. reflexivity.
    + rewrite decide_False by tauto. exact IH.
  - rewrite decide_False by tauto. exact IH.
Qed.

(** *** The buckets after initialization *)

Lemma initialized_NoDup rows : NoDup ((initialized rows).*1).
Proof.
  unfold initialized. rewrite keys_fill, keys_aggregate.
  apply first_occurrences_NoDup, NoDup_nil_2.
Qed.

Lemma dict_get_initialized w rows :
  dict_get w (initialized rows)
  = match rows_of_week (start_week_of rows) w rows with
    | [] => None
    | rs => Some (fill_bucket (row_entry <$> rs))
    end.
Proof.
  unfold initialized. rewrite dict_get_fill, dict_get_aggregate.
  cbn [dict_get]. destruct (rows_of_week _ w rows); reflexivity.
Qed.

Lemma init_run' self st :
  data self <> [] ->
  WeekDataProcessor_init self st
  = (Ok tt, set_wd (initialized (data self))
              (add_log (init_log (data self) (default (Build_Row "" "" "" None)
                                                      (head (data self)))) st)).
Proof.
  intros Hne. destruct (data self) as [| first rest] eqn:Hdata; [congruence |].
  rewrite (init_run self first rest st Hdata), Hdata. reflexivity.
Qed.

(** *** Order of the buckets *)

Lemma first_occurrences_sorted acc ks :
  StronglySorted Z.lt acc ->
  StronglySorted Z.le ks ->
  (forall a k, a ∈ acc -> k ∈ ks -> a <= k) ->
  StronglySorted Z.lt (first_occurrences acc ks).
Proof.
  unfold first_occurrences. revert acc.
  induction ks as [| k ks IH]; intros acc Hacc Hks Hle; [assumption |].
  cbn [foldl]. apply StronglySorted_inv in Hks as [Hks Hk].
  rewrite Forall_forall in Hk.
  destruct (decide (k ∈ acc)) as [Hin | Hnin].
  - apply IH; [assumption.. |].
    intros a k' Ha Hk'. apply Hle; [assumption | apply list_elem_of_further, Hk'].
  - apply IH; [| assumption |].
    + clear IH Hks Hk. induction Hacc as [| a acc Hacc IHacc Ha].
      * repeat constructor.
      * cbn [app]. constructor.
        -- apply IHacc.
           ++ intros a' k' Ha' Hk'. apply Hle; [apply list_elem_of_further, Ha' | exact Hk'].
           ++ intros Hin. apply Hnin, list_elem_of_further, Hin.
        -- apply Forall_app. split; [assumption |].
           constructor; [| constructor].
           assert (a <= k) by (apply Hle; apply list_elem_of_here).
           assert (a <> k) by (intros ->; apply Hnin, list_elem_of_here).
           lia.
    + intros a k' Ha Hk'. apply elem_of_app in Ha as [Ha | ->%list_elem_of_singleton].
      * apply Hle; [assumption | apply list_elem_of_further, Hk'].
      * apply Hk, Hk'.
Qed.

(** *** Properties kept by every step of a computation *)

Section Preserves.
Context (R : relation State) `{!PreOrder R}.

Lemma preserves_ret {A} (a : A) : preserves R (ret a).
Proof. intros st. reflexivity. Qed.

Lemma preserves_raise {A} e : preserves R (@raise A e).
Proof. intros st. reflexivity. Qed.

Lemma preserves_lift {A} (r : Result A) : preserves R (lift r).
Proof. intros st. reflexivity. Qed.

Lemma preserves_bind {A B} (c : M A) (k : A -> M B) :
  preserves R c -> (forall a, preserves R (k a)) -> preserves R (bind c k).
Proof.
  intros Hc Hk st. specialize (Hc st). unfold bind.
  destruct (c st) as [[a | e] st1]; simpl in *.
  - transitivity st1; [assumption | apply Hk].
  - assumption.
Qed.

Lemma preserves_mbind {A B} (c : M A) (k : A -> M B) :
  preserves R c -> (forall a, preserves R (k a)) -> preserves R (c ≫= k).
Proof. apply preserves_bind. Qed.

Lemma preserves_for_each {A} (xs : list A) (body : A -> M unit) :
  (forall x, preserves R (body x)) -> preserves R (for_each xs body).
Proof.
  intros Hbody. induction xs as [| x xs IH]; cbn [for_each].
  - apply preserves_ret.
  - apply preserves_bind; auto.
Qed.

End Preserves.

(** *** What the substitution phase may change in [weeks_data] *)

#[local] Instance entry_frame_preorder : PreOrder entry_frame.
Proof.
  split.
  - intros e. unfold entry_frame. auto.
  - intros e1 e2 e3 (T1 & I1 & A1) (T2 & I2 & A2). unfold entry_frame.
    rewrite T2, T1, I2, I1. repeat split. rewrite I1 in A2.
    destruct A2 as [-> | [? ->]]; [assumption | auto].
Qed.

#[local] Instance bucket_frame_preorder : PreOrder bucket_frame.
Proof.
  split.
  - intros b. split; reflexivity.
  - intros b1 b2 b3 [K1 F1] [K2 F2]. split; [congruence | etransitivity; eassumption].
Qed.

#[local] Instance weeks_frame_preorder : PreOrder weeks_frame.
Proof. exact (_ : PreOrder (Forall2 bucket_frame)). Qed.

#[local] Instance state_frame_preorder : PreOrder state_frame.
Proof.
  split.
  - intros st. unfold state_frame. reflexivity.
  - intros s1 s2 s3. unfold state_frame. apply transitivity.
Qed.

#[local] Instance same_visited_preorder : PreOrder same_visited.
Proof. split; unfold same_visited; [intros st | intros s1 s2 s3]; congruence. Qed.

Lemma replace_placeholders_for_day_run self cell day week r st :
  let st1 := data_write r (substituted_type r st) st in
  let content_call :=
    ReplacePlaceholders cell (placeholder day "_INHALT" week)
      (format_content (data_read Inhalt r st)) in
  replace_placeholders_for_day self cell day week r st
  = match settings self !! "default_hours" with
    | Some hours =>
        (Ok tt,
         add_calls
           [content_call;
            ReplacePlaceholders cell (placeholder day "_STUNDEN" week) hours;
            ReplacePlaceholders cell (placeholder day "_ART" week)
              (substituted_type r st)] st1)
    | None => (Raise (KeyError "default_hours"), add_calls [content_call] st1)
    end.
Proof.
  unfold replace_placeholders_for_day, substituted_type, settings_getitem,
    document_call, data_get, data_set_Art, get_weeks_data, set_weeks_data,
    add_calls, set_wd.
  munfold.
  destruct r as [| b i]; cbn [data_read data_write].
  - change (contains MARKER EmptyString) with false. cbv beta iota zeta.
    destruct (settings self !! "default_hours");
      cbn [weeks_data log doc_calls visited]; rewrite <- ?app_assoc; reflexivity.
  - destruct (contains MARKER _);
      destruct (settings self !! "default_hours");
      cbn [weeks_data log doc_calls visited]; rewrite <- ?app_assoc; reflexivity.
Qed.

Lemma store_Art_frame b i v wd :
  (forall e, bucket_entries b wd !! i = Some e -> entry_frame e (set_Art v e)) ->
  weeks_frame wd (store_Art b i v wd).
Proof.
  unfold weeks_frame, bucket_entries.
  induction wd as [| [k es] wd IH]; intros Hv; cbn [store_Art]; [constructor |].
  cbn [dict_get] in Hv. destruct (k =? b).
  - constructor; [| reflexivity]. split; [reflexivity |]. cbn [snd].
    apply Forall2_alter_r; [reflexivity |].
    intros x y Hx Hy _. assert (x = y) as <- by congruence. auto.
  - constructor; [reflexivity | auto].
Qed.

Lemma data_write_frame r st :
  state_frame st (data_write r (substituted_type r st) st).
Proof.
  destruct r as [| b i]; [reflexivity |].
  unfold state_frame, substituted_type. cbn [data_write data_read set_wd weeks_data].
  apply store_Art_frame. intros e He. rewrite He. simpl.
  unfold entry_frame, set_Art. cbn [tag Inhalt Art].
  destruct (contains MARKER (Inhalt e)) eqn:E; auto.
Qed.

Lemma replace_placeholders_for_day_frame self cell day week r :
  preserves state_frame (replace_placeholders_for_day self cell day week r).
Proof.
  intros st. rewrite replace_placeholders_for_day_run.
  destruct (settings self !! "default_hours"); apply data_write_frame.
Qed.

Lemma replace_placeholders_for_day_visited self cell day week r :
  preserves same_visited (replace_placeholders_for_day self cell day week r).
Proof.
  intros st. rewrite replace_placeholders_for_day_run.
  destruct (settings self !! "default_hours"); destruct r; reflexivity.
Qed.

(** The loops of [process_week_placeholders] after [enter_week]. *)
Ltac preserves_steps :=
  repeat first
    [ apply replace_placeholders_for_day_frame
    | apply replace_placeholders_for_day_visited
    | apply preserves_mbind; [apply _ | | intros ?]
    | apply preserves_bind; [apply _ | | intros ?]
    | apply preserves_for_each; [apply _ | intros ?]
    | apply preserves_lift; apply _
    | apply preserves_ret; apply _
    | apply preserves_raise; apply _
    | match goal with
      | |- preserves _ (match ?x with _ => _ end) => destruct x
      | |- preserves _ (let '(_, _) := ?x in _) => destruct x
      end
    | (intros ?; hnf; simpl; reflexivity) ].

Lemma process_week_placeholders_frame self week entries :
  preserves state_frame (process_week_placeholders self week entries).
Proof.
  unfold process_week_placeholders, Datum0, day_data. preserves_steps.
Qed.

Lemma process_all_weeks_frame self :
  preserves state_frame (process_all_weeks self).
Proof.
  unfold process_all_weeks.
  apply preserves_mbind; [apply _ | intros st; reflexivity | intros wd].
  apply preserves_for_each; [apply _ |]. intros [week es].
  apply process_week_placeholders_frame.
Qed.

Lemma process_week_placeholders_visited self week entries st :
  visited (process_week_placeholders self week entries st).2 = visited st ++ [week].
Proof.
  unfold process_week_placeholders.
  erewrite mbind_ok by reflexivity.
  match goal with
  | |- visited (?rest ?st1).2 = _ =>
      assert (preserves same_visited rest) as Hrest
  end.
  { unfold Datum0, day_data. preserves_steps. }
  rewrite Hrest. reflexivity.
Qed.

Lemma for_each_week_visited self (wd : WeeksData) st :
  let run :=
    for_each wd (fun '(week, _) => process_week_placeholders self week week) st in
  exists done rest,
    wd.*1 = done ++ rest
    /\ visited run.2 = visited st ++ done
    /\ (run.1 = Ok tt -> rest = []).
Proof.
  revert st. induction wd as [| [w es] wd IH]; intros st; cbv zeta.
  - exists [], []. simpl. rewrite app_nil_r. auto.
  - cbn [for_each]. unfold bind.
    pose proof (process_week_placeholders_visited self w w st) as Hw.
    destruct (process_week_placeholders self w w st) as [[[] | e] st1].
    + destruct (IH st1) as (done & rest & Hk & Hv & Hok). simpl in Hw.
      exists (w :: done), rest. cbn [fmap list_fmap fst]. repeat split.
      * simpl. f_equal. exact Hk.
      * rewrite Hv, Hw, <- app_assoc. reflexivity.
      * exact Hok.
    + exists [w], (wd.*1). simpl in *. repeat split; [assumption | discriminate].
Qed.

Lemma process_all_weeks_visited self st :
  exists done rest,
    (weeks_data st).*1 = done ++ rest
    /\ visited (process_all_weeks self st).2 = visited st ++ done
    /\ ((process_all_weeks self st).1 = Ok tt -> rest = []).
Proof.
  unfold process_all_weeks. erewrite mbind_ok by reflexivity.
  apply for_each_week_visited.
Qed.

Lemma row_in_bucket rows row :
  row ∈ rows ->
  exists entries,
    dict_get (relative_week (start_week_of rows) row) (initialized rows) = Some entries
    /\ row_entry row ∈ entries.
Proof.
  intros Hin. rewrite dict_get_initialized.
  assert (row ∈ rows_of_week (start_week_of rows)
                  (relative_week (start_week_of rows) row) rows) as Hrow.
  { apply list_elem_of_filter. auto. }
  destruct (rows_of_week _ _ rows) as [| r rs] eqn:E.
  - by apply elem_of_nil in Hrow.
  - eexists. split; [reflexivity |]. unfold fill_bucket.
    apply elem_of_app. left. apply list_elem_of_fmap_2, Hrow.
Qed.

Lemma entry_frame_eq e e' :
  contains MARKER (Inhalt e) = false -> entry_frame e e' -> e' = e.
Proof.
  intros Hno (Ht & Hi & [Ha | [Hyes _]]); [| congruence].
  destruct e, e'; simpl in *; congruence.
Qed.

Lemma weeks_frame_eq wd wd' :
  (forall week entries e,
     (week, entries) ∈ wd -> e ∈ entries -> contains MARKER (Inhalt e) = false) ->
  weeks_frame wd wd' -> wd' = wd.
Proof.
  intros Hno Hframe. induction Hframe as [| [w es] [w' es'] wd wd' [Hw Hes] Hrest IH];
    [reflexivity |].
  cbn [fst snd] in Hw, Hes. subst w'. f_equal.
  - f_equal.
    assert (forall e, e ∈ es -> contains MARKER (Inhalt e) = false) as Hno'.
    { intros e He. apply (Hno w es e); [apply list_elem_of_here | exact He]. }
    clear Hno IH Hrest. induction Hes as [| e e' es es' He Hes IH]; [reflexivity |].
    f_equal.
    + apply entry_frame_eq; [apply Hno', list_elem_of_here | exact He].
    + apply IH. intros e0 He0. apply Hno', list_elem_of_further, He0.
  - apply IH. intros week entries e Hin.
    apply (Hno week entries e), list_elem_of_further, Hin.
Qed.

Lemma StronglySorted_app_l {A} (R : A -> A -> Prop) l1 l2 :
  StronglySorted R (l1 ++ l2) -> StronglySorted R l1.
Proof.
  induction l1 as [| x l1 IH]; intros Hs; [constructor |].
  cbn [app] in Hs. apply StronglySorted_inv in Hs as [Hs Hx].
  constructor; [auto |]. apply Forall_app in Hx. tauto.
Qed.

(** *** The claims about the processor *)

(** C1 (as amended): after initialization every week bucket holds every
    configured day.  The number of entries of a configured day in a bucket
    is the number of input rows of that week and day, and one when there is
    no such row: rows of the same week and day are not merged. *)
Theorem initialized_buckets_cover_days self st :
  data self <> [] ->
  exists st',
    WeekDataProcessor_init self st = (Ok tt, st')
    /\ forall week entries day,
         (week, entries) ∈ weeks_data st' -> day ∈ days ->
         count_tag day entries
         = Nat.max 1
             (List.length
                (filter (fun row =>
                           relative_week (start_week_of (data self)) row = week
                           ∧ upper (Tag row) = day)
                        (data self))).
Proof.
  intros Hne. rewrite init_run' by assumption. eexists. split; [reflexivity |].
  cbn [set_wd weeks_data]. intros week entries day Hin Hday.
  apply dict_get_elem_of in Hin; [| apply initialized_NoDup].
  rewrite dict_get_initialized in Hin.
  assert (entries
          = fill_bucket
              (row_entry <$> rows_of_week (start_week_of (data self)) week (data self)))
    as ->.
  { destruct (rows_of_week _ week (data self)); [discriminate | congruence]. }
  rewrite count_tag_fill_bucket by assumption.
  unfold rows_of_week. rewrite count_tag_rows. reflexivity.
Qed.

(** C2 (as amended): the substitution phase keeps the buckets, their order,
    and every entry's day and 'Inhalt'; an entry's 'Art' is kept or
    overwritten with the marker, the latter only when its 'Inhalt' holds
    the marker.  When no 'Inhalt' holds the marker, [weeks_data] is
    unchanged. *)
Theorem substitution_keeps_weeks_data_up_to_marker self st :
  weeks_frame (weeks_data st) (weeks_data (process_all_weeks self st).2)
  /\ ((forall week entries e,
         (week, entries) ∈ weeks_data st -> e ∈ entries ->
         contains MARKER (Inhalt e) = false) ->
      weeks_data (process_all_weeks self st).2 = weeks_data st).
Proof.
  pose proof (process_all_weeks_frame self st) as Hframe.
  split; [exact Hframe |]. intros Hno. eapply weeks_frame_eq; eassumption.
Qed.

(** C3: on a date string that does not parse, [get_week] logs one error
    and returns -1; on one that parses it returns the ISO 8601 week number
    and logs nothing.  A row with an unparsable date is still bucketed, in
    relative week [-1 - start_week + 1]. *)
Theorem get_week_sentinel_is_bucketed :
  (forall s st,
     match strptime s with
     | inl e => get_week s st = (Ok (-1), add_log [LogError s e] st)
     | inr d => get_week s st = (Ok (iso8601_week d), st)
     end)
  /\ (forall self st first rest row e,
        data self = first :: rest -> row ∈ data self ->
        strptime (Datum row) = inl e ->
        exists start_week st0 st' entries,
          get_week (Datum first) st = (Ok start_week, st0)
          /\ WeekDataProcessor_init self st = (Ok tt, st')
          /\ dict_get (-1 - start_week + 1) (weeks_data st') = Some entries
          /\ row_entry row ∈ entries).
Proof.
  split.
  - intros s st. rewrite get_week_run. unfold week_of, week_log.
    destruct (strptime s) as [e | d] eqn:E; [reflexivity |].
    rewrite add_log_nil. rewrite iso_week_is_iso8601; [reflexivity |].
    apply valid_date_month_day. eapply strptime_valid; eassumption.
  - intros self st first rest row e Hdata Hin Hbad.
    destruct (row_in_bucket (data self) row Hin) as (entries & Hget & Hrow).
    exists (week_of (Datum first)), (add_log (week_log (Datum first)) st).
    eexists. exists entries. split; [apply get_week_run |].
    split; [apply init_run'; congruence |].
    cbn [set_wd weeks_data]. split; [| exact Hrow].
    rewrite <- Hget. f_equal. unfold relative_week, week_of at 2.
    rewrite Hbad, Hdata. reflexivity.
Qed.

(** C4: a row whose date parses, in a table whose first date parses, is
    placed in the bucket ISO_week(row) - ISO_week(first row) + 1; the first
    row is always placed in relative week 1. *)
Theorem rows_land_in_relative_week self st first rest :
  data self = first :: rest ->
  exists st',
    WeekDataProcessor_init self st = (Ok tt, st')
    /\ (forall row d d0,
          row ∈ data self ->
          strptime (Datum row) = inr d -> strptime (Datum first) = inr d0 ->
          exists entries,
            dict_get (iso8601_week d - iso8601_week d0 + 1) (weeks_data st')
            = Some entries
            /\ row_entry row ∈ entries)
    /\ (exists entries,
          dict_get 1 (weeks_data st') = Some entries
          /\ row_entry first ∈ entries).
Proof.
  intros Hdata. rewrite init_run' by congruence. eexists. split; [reflexivity |].
  cbn [set_wd weeks_data]. split.
  - intros row d d0 Hin Hd Hd0.
    destruct (row_in_bucket (data self) row Hin) as (entries & Hget & Hrow).
    exists entries. split; [| exact Hrow]. rewrite <- Hget. f_equal.
    unfold relative_week. rewrite Hdata. cbn [start_week_of]. unfold week_of.
    rewrite Hd, Hd0.
    rewrite !iso_week_is_iso8601
      by (apply valid_date_month_day; eapply strptime_valid; eassumption).
    reflexivity.
  - assert (first ∈ data self) as Hin by (rewrite Hdata; apply list_elem_of_here).
    destruct (row_in_bucket (data self) first Hin) as (entries & Hget & Hrow).
    exists entries. split; [| exact Hrow]. rewrite <- Hget. f_equal.
    unfold relative_week. rewrite Hdata. cbn [start_week_of]. lia.
Qed.


(** C7 (as amended): [process_all_weeks] visits the buckets in the order in
    which their relative weeks first appear in the input table; a run that
    raises stops within that order.  The order is strictly increasing when
    the relative weeks of the rows never decrease down the table. *)
Theorem weeks_visited_in_insertion_order self :
  let weeks := relative_week (start_week_of (data self)) <$> data self in
  let st1 := (WeekDataProcessor_init self initial_state).2 in
  let run := process_all_weeks self st1 in
  (exists rest,
     first_occurrences [] weeks = visited run.2 ++ rest
     /\ (run.1 = Ok tt -> rest = []))
  /\ (StronglySorted Z.le weeks -> StronglySorted Z.lt (visited run.2)).
Proof.
  cbv zeta.
  destruct (process_all_weeks_visited self (WeekDataProcessor_init self initial_state).2)
    as (done & rest & Hkeys & Hvis & Hok).
  assert (visited (WeekDataProcessor_init self initial_state).2 = []
          /\ (weeks_data (WeekDataProcessor_init self initial_state).2).*1
             = first_occurrences []
                 (relative_week (start_week_of (data self)) <$> data self))
    as [Hv0 Hk0].
  { destruct (data self) as [| first rest0] eqn:Hdata.
    - rewrite init_empty by assumption. split; reflexivity.
    - rewrite init_run' by congruence. cbn [snd set_wd weeks_data visited add_log].
      split; [reflexivity |]. rewrite <- Hdata.
      unfold initialized. rewrite keys_fill, keys_aggregate. reflexivity. }
  rewrite Hv0 in Hvis. cbn [app] in Hvis. rewrite Hvis, <- Hk0, Hkeys.
  split; [eauto |].
  intros Hsorted. apply (StronglySorted_app_l _ done rest).
  rewrite <- Hkeys, Hk0. apply first_occurrences_sorted.
  - constructor.
  - assumption.
  - intros a k Ha. by apply elem_of_nil in Ha.
Qed.

(** C10: construction raises [IndexError] on an empty table and returns
    normally on every non-empty one. *)
Theorem construction_needs_a_row self st :
  match data self with
  | [] => WeekDataProcessor_init self st = (Raise IndexError, st)
  | _ :: _ => exists st', WeekDataProcessor_init self st = (Ok tt, st')
  end.
Proof.
  destruct (data self) as [| first rest] eqn:Hdata.
  - apply init_empty, Hdata.
  - eexists. eapply init_run, Hdata.
Qed.

End MethodFacts.

(** ** Date ranges and content formatting *)









(** C5 (as amended): [format_content] removes the marker and trims; an
    empty rest gives the empty string; otherwise every comma and every
    occurrence of a dash followed by a blank is removed, wherever it
    stands, and each line is written behind the bullet "-   ". *)
Theorem format_content_bullets content :
  format_content content
  = match strip (replace MARKER "" content) with
    | EmptyString => EmptyString
    | rest =>
        join nl ((fun line => BULLET +:+ line)
                 <$> split LF (replace "- " "" (replace "," "" rest)))
    end
  /\ format_content "" = ""
  /\ format_content ("foo,bar" +:+ nl +:+ "baz")
     = "-   foobar" +:+ nl +:+ "-   baz".
Proof.
  split; [| split; vm_compute; reflexivity].
  unfold format_content.
  destruct (strip (replace MARKER "" content)); [reflexivity |].
  apply bullet_lines.
Qed.

(** C5, as stated, fails where a dash and a blank stand inside a line: the
    content has no comma and no leading dash, and is still changed. *)
Lemma format_content_strips_inner_dash :
  format_content_spec "a - b" = "-   a - b"
  /\ format_content "a - b" = "-   a b"
  /\ format_content "a - b" <> format_content_spec "a - b".
Proof. repeat split; vm_compute; [reflexivity .. | discriminate]. Qed.

(** ** Runs on concrete tables *)

Lemma initialized_buckets_cover_days_witness :
  exists st',
    @WeekDataProcessor_init example_config
      (example_processor (Some "8") same_day_rows) initial_state = (Ok tt, st')
    /\ forall week entries day,
         (week, entries) ∈ weeks_data st' -> day ∈ @days example_config ->
         count_tag day entries
         = Nat.max 1
             (List.length
                (filter (fun row =>
                           relative_week (start_week_of same_day_rows) row = week
                           ∧ ascii_upper (Tag row) = day)
                        same_day_rows)).
Proof.
  apply (@initialized_buckets_cover_days example_config
           (example_processor (Some "8") same_day_rows) initial_state).
  discriminate.
Defined.

(** C1, as stated, fails on a table with two rows for one day: the bucket
    of week 1 holds the configured day MONTAG twice. *)
Lemma same_day_rows_are_not_merged :
  let wd := weeks_data (constructed (example_processor (Some "8") same_day_rows)) in
  count_tag "MONTAG" (bucket_entries 1 wd) = 2%nat
  /\ ~ @one_entry_per_day example_config wd.
Proof.
  cbv zeta. split; [vm_compute; reflexivity |].
  intros Hone.
  pose (entries := @bucket_entries 1
          (weeks_data (constructed (example_processor (Some "8") same_day_rows)))).
  assert (count_tag "MONTAG" entries = 1%nat) as Hcount.
  { apply (Hone 1).
    - apply elem_of_dict_get. vm_compute. reflexivity.
    - apply list_elem_of_here. }
  vm_compute in Hcount. discriminate.
Qed.

Lemma substitution_keeps_weeks_data_witness :
  weeks_data (processed (example_processor (Some "8") sorted_rows)).2
  = weeks_data (constructed (example_processor (Some "8") sorted_rows)).
Proof.
  apply (proj2 (@substitution_keeps_weeks_data_up_to_marker example_config
                  (example_processor (Some "8") sorted_rows)
                  (constructed (example_processor (Some "8") sorted_rows)))).
  intros week entries e Hin He.
  assert (Forall (fun b : Z * list DayEntry =>
                    Forall (fun e => contains MARKER (Inhalt e) = false) b.2)
            (weeks_data (constructed (example_processor (Some "8") sorted_rows))))
    as Hall by (vm_compute; repeat constructor).
  rewrite Forall_forall in Hall. specialize (Hall _ Hin). cbn [snd] in Hall.
  rewrite Forall_forall in Hall. auto.
Defined.

(** C2, as stated, fails on a row whose content holds the marker: the run
    completes and the entry's type in [weeks_data] has changed. *)
Lemma substitution_overwrites_type :
  let self := example_processor (Some "8") school_rows in
  (processed self).1 = Ok tt
  /\ weeks_data (processed self).2 <> weeks_data (constructed self).
Proof.
  cbv zeta. split; [vm_compute; reflexivity |].
  intros E.
  apply (f_equal (fun wd => Art <$> bucket_entries 1 wd !! 0%nat)) in E.
  vm_compute in E. discriminate.
Qed.

Lemma get_week_sentinel_is_bucketed_witness :
  exists start_week st0 st' entries,
    @get_week "01.04.2024" initial_state = (Ok start_week, st0)
    /\ @WeekDataProcessor_init example_config
         (example_processor (Some "8") bad_date_rows) initial_state = (Ok tt, st')
    /\ dict_get (-1 - start_week + 1) (weeks_data st') = Some entries
    /\ @row_entry example_config (example_row "2024-04-02" "Dienstag" "Inventur")
       ∈ entries.
Proof.
  apply (proj2 (@get_week_sentinel_is_bucketed example_config)
           (example_processor (Some "8") bad_date_rows) initial_state
           (example_row "01.04.2024" "Montag" "Ablage")
           [example_row "2024-04-02" "Dienstag" "Inventur"]
           (example_row "2024-04-02" "Dienstag" "Inventur") NoMatch).
  - reflexivity.
  - apply list_elem_of_further, list_elem_of_here.
  - vm_compute. reflexivity.
Defined.

Lemma rows_land_in_relative_week_witness :
  exists st',
    @WeekDataProcessor_init example_config
      (example_processor (Some "8") sorted_rows) initial_state = (Ok tt, st')
    /\ (forall row d d0,
          row ∈ sorted_rows ->
          strptime (Datum row) = inr d -> strptime "01.04.2024" = inr d0 ->
          exists entries,
            dict_get (iso8601_week d - iso8601_week d0 + 1) (weeks_data st')
            = Some entries
            /\ @row_entry example_config row ∈ entries)
    /\ (exists entries,
          dict_get 1 (weeks_data st') = Some entries
          /\ @row_entry example_config (example_row "01.04.2024" "Montag" "Ablage")
             ∈ entries).
Proof.
  apply (@rows_land_in_relative_week example_config
           (example_processor (Some "8") sorted_rows) initial_state
           (example_row "01.04.2024" "Montag" "Ablage")
           [example_row "08.04.2024" "Montag" "Inventur"]).
  reflexivity.
Defined.


Lemma weeks_visited_in_insertion_order_witness :
  StronglySorted Z.lt (visited (processed (example_processor (Some "8") sorted_rows)).2).
Proof.
  apply (proj2 (@weeks_visited_in_insertion_order example_config
                  (example_processor (Some "8") sorted_rows))).
  vm_compute. repeat constructor; discriminate.
Defined.

(** C7, as stated, fails on a table whose first row lies a week after its
    second: week 1 is visited before week 0. *)
Lemma later_week_first_is_visited_first :
  let run := processed (example_processor (Some "8") unsorted_rows) in
  run.1 = Ok tt /\ visited run.2 = [1; 0]
  /\ ~ StronglySorted Z.lt (visited run.2).
Proof.
  cbv zeta. split; [vm_compute; reflexivity |].
  assert (visited (processed (example_processor (Some "8") unsorted_rows)).2 = [1; 0])
    as -> by (vm_compute; reflexivity).
  split; [reflexivity |].
  intros Hs. apply StronglySorted_inv in Hs as [_ Hall].
  apply Forall_inv in Hall. lia.
Qed.

(** C9: with [default_hours] missing from the settings the run raises
    [KeyError], although [name] and [year], also missing, fall back to
    "N/A". *)
Theorem missing_default_hours_raises :
  let run := processed (example_processor None school_rows) in
  run.1 = Raise (KeyError "default_hours")
  /\ doc_calls run.2
     = [ReplaceGeneral 0%nat
          [("{NAME}", "N/A"); ("{ABJ}", "N/A");
           ("{DATUM_START1}", "01.04.2024"); ("{DATUM_ENDE1}", "05.04.2024")];
        ReplacePlaceholders 0%nat "{MONTAG_INHALT1}" "-   Mathe Deutsch"]
  /\ (processed (example_processor (Some "8") school_rows)).1 = Ok tt.
Proof. cbv zeta. repeat split; vm_compute; reflexivity. Qed.
